(** * WikipediaMcpServer developer scripts: run-tests.py and start-server.py

    A shallow embedding of the two Python scripts and the properties of
    their orchestration logic.

    The scripts are sequences of effects: they print, spawn child
    processes with [subprocess.run], query the file system and the host
    platform, sleep, and leave through [sys.exit].  Every function of the
    scripts is embedded as a computation in a small monad [M] that
    threads the trace of effects performed so far and can raise a Python
    exception.  The environment (what a child process does when it is
    spawned, which paths exist, which platform the script runs on) is a
    value [env] the computations read, so that a statement over all [env]
    covers every behaviour of the collaborators. *)

From stdpp Require Import gmap strings list.
From Stdlib Require Import ZArith String Ascii Lia.

Open Scope string_scope.
Open Scope list_scope.
Open Scope Z_scope.

(** ** The Python runtime the scripts rely on *)

Module Py.

(** Exceptions the scripts raise, catch or let through. *)
Inductive exn :=
| CalledProcessError (cmd : list string) (returncode : Z)
| FileNotFoundError
| KeyboardInterrupt
| OSError
| SystemExit (code : Z).

(** One piece of a printed line: literal text, or an interpolated value
    of an f-string kept as the value it formats. *)
Inductive fpart :=
| Lit (s : string)
| FmtStr (s : string)
| FmtInt (z : Z)
| FmtExn (e : exn).

(** Effects visible from outside, in the order they happen. *)
Inductive event :=
| EChdir
| EOut (line : list fpart)
| ESpawn (cmd : list string)
| EExists (path : string)
| ESleep (secs : Z)
| EHelp
| EUsage.

(** How a spawn can fail before or while the child runs. *)
Inductive spawn_error :=
| ENOENT
| SIGINT
| EOTHER.

Definition exn_of (e : spawn_error) : exn :=
  match e with
  | ENOENT => FileNotFoundError
  | SIGINT => KeyboardInterrupt
  | EOTHER => OSError
  end.

(** What the environment answers to one [subprocess.run]: the child ran
    and left with a return code (negative when a signal killed it, as
    [subprocess] reports it on POSIX) having written [out] on its standard
    output, or the call itself raised. *)
Inductive proc_outcome :=
| Exited (returncode : Z) (out : string)
| Failed (err : spawn_error).

Record env := {
  platform_system : string;
  path_exists : string -> bool;
  (** [child n cmd]: the outcome of the [n]-th spawn of the run (counting
      from 0) when it runs [cmd]. *)
  child : nat -> list string -> proc_outcome
}.

Definition trace := list event.

Inductive outcome (A : Type) :=
| Ret (a : A)
| Raise (e : exn).
Arguments Ret {A} a.
Arguments Raise {A} e.

Definition M (A : Type) : Type := env -> trace -> outcome A * trace.

Definition ret {A} (a : A) : M A := fun _ tr => (Ret a, tr).

Definition bind {A B} (m : M A) (k : A -> M B) : M B :=
  fun ev tr =>
    match m ev tr with
    | (Ret a, tr') => k a ev tr'
    | (Raise e, tr') => (Raise e, tr')
    end.

Definition raise {A} (e : exn) : M A := fun _ tr => (Raise e, tr).

Definition emit (e : event) : M unit := fun _ tr => (Ret tt, tr ++ [e]).

(** [try: body / except ...: handler].  [handler e] is [None] when no
    except clause matches [e], which then propagates. *)
Definition try_except {A} (body : M A) (handler : exn -> option (M A)) : M A :=
  fun ev tr =>
    match body ev tr with
    | (Ret a, tr') => (Ret a, tr')
    | (Raise e, tr') =>
        match handler e with
        | Some h => h ev tr'
        | None => (Raise e, tr')
        end
    end.

(** [try: body / finally: fin]: [fin] runs on every way out of [body]; the
    outcome of [body] stands unless [fin] itself raises. *)
Definition try_finally {A} (body : M A) (fin : M unit) : M A :=
  fun ev tr =>
    match body ev tr with
    | (r, tr') =>
        match fin ev tr' with
        | (Ret _, tr'') => (r, tr'')
        | (Raise e, tr'') => (Raise e, tr'')
        end
    end.

Declare Scope py_scope.
Delimit Scope py_scope with py.
Notation "x <- m ;; k" := (bind m (fun x => k))
  (at level 100, m at next level, right associativity) : py_scope.
Notation "m ;; k" := (bind m (fun _ => k))
  (at level 100, right associativity) : py_scope.
Open Scope py_scope.

(** [print(...)] of one line; [print()] is the empty line. *)
Definition print (line : list fpart) : M unit := emit (EOut line).
Definition print_str (s : string) : M unit := print [Lit s].

Definition sys_exit {A} (code : Z) : M A := raise (SystemExit code).

Definition time_sleep (secs : Z) : M unit := emit (ESleep secs).

Definition os_path_exists (path : string) : M bool :=
  fun ev tr => (Ret (path_exists ev path), tr ++ [EExists path]).

Definition get_platform_system : M string :=
  fun ev tr => (Ret (platform_system ev), tr).

(** [os.chdir(os.path.dirname(os.path.abspath(__file__)))]. *)
Definition chdir_script_dir : M unit := emit EChdir.

(** The commands spawned so far, oldest first. *)
Definition spawns (tr : trace) : list (list string) :=
  omap (fun e => match e with ESpawn c => Some c | _ => None end) tr.

Definition spawn_count (tr : trace) : nat := List.length (spawns tr).

Record CompletedProcess := {
  returncode : Z;
  stdout : string
}.

(** [subprocess.run(cmd, check=check)].  With [check] a non-zero return
    code raises [CalledProcessError]; a spawn that fails raises whatever
    the failure is.  The attempt is recorded in the trace either way.
    This is where the scripts wait, and where an interrupt of the operator
    reaches them ([SIGINT]). *)
Definition subprocess_run (cmd : list string) (check : bool) : M CompletedProcess :=
  fun ev tr =>
    let tr' := tr ++ [ESpawn cmd] in
    match child ev (spawn_count tr) cmd with
    | Exited rc out =>
        if check && negb (rc =? 0)
        then (Raise (CalledProcessError cmd rc), tr')
        else (Ret {| returncode := rc; stdout := out |}, tr')
    | Failed err => (Raise (exn_of err), tr')
    end.

(** [for x in xs: acc = body(x, acc)]. *)
Fixpoint for_each {A S} (xs : list A) (body : A -> S -> M S) (acc : S) : M S :=
  match xs with
  | [] => ret acc
  | x :: xs' => acc' <- body x acc ;; for_each xs' body acc'
  end.

(** ["=" * n]. *)
Fixpoint str_repeat (s : string) (n : nat) : string :=
  match n with
  | O => ""
  | S n' => s +:+ str_repeat s n'
  end.

Definition nl : string := String "010" "".

(** Whitespace as [str.strip] sees it on ASCII text. *)
Definition is_space (c : ascii) : bool :=
  let n := nat_of_ascii c in
  ((9 <=? n)%nat && (n <=? 13)%nat) || ((28 <=? n)%nat && (n <=? 32)%nat).

Fixpoint lstrip (s : string) : string :=
  match s with
  | String c s' => if is_space c then lstrip s' else s
  | EmptyString => EmptyString
  end.

Fixpoint rstrip (s : string) : string :=
  match s with
  | String c s' =>
      match rstrip s' with
      | EmptyString => if is_space c then EmptyString else String c EmptyString
      | r => String c r
      end
  | EmptyString => EmptyString
  end.

Definition strip (s : string) : string := rstrip (lstrip s).

Definition startswith (s p : string) : bool := String.prefix p s.

(** The status the interpreter leaves with: 0 when the script runs off
    its end, the argument of [sys.exit] otherwise (of which a POSIX
    system keeps the low eight bits; the model stops at the argument).
    An exception nobody caught ends the interpreter abnormally and has no
    entry here. *)
Definition process_exit_code (r : outcome unit) : option Z :=
  match r with
  | Ret _ => Some 0
  | Raise (SystemExit c) => Some c
  | Raise _ => None
  end.

End Py.

Import Py.

(** ** argparse, as far as a parser of [store_true] flags uses it

    [argparse] is Python's standard library.  The model follows
    [ArgumentParser.parse_args] of CPython 3.11 for a parser whose only
    actions are the automatic [-h/--help] and [store_true] options: the
    classification of each argument ([_parse_optional],
    [_get_option_tuples], abbreviations allowed), the consumption loop
    with clusters of short options ([consume_optional]), and the final
    check for unrecognized arguments. *)

Module Argparse.

Inductive action :=
| HelpAction
| StoreTrue (dest : string).

(** [_option_string_actions]: option string to action, in registration
    order. *)
Definition option_table := list (string * action).

Definition lookup_option (t : option_table) (s : string) : option action :=
  snd <$> List.find (fun p => String.eqb (fst p) s) t.

Inductive usage_error :=
| Unrecognized (extras : list string)
| AmbiguousOption (arg : string) (matches : list string)
| IgnoredExplicit (a : action) (explicit_arg : string).

(** [s.split('=', 1)] when ['=' in s]. *)
Fixpoint split_eq (s : string) : option (string * string) :=
  match s with
  | EmptyString => None
  | String c s' =>
      if Ascii.eqb c "=" then Some (EmptyString, s')
      else match split_eq s' with
           | Some (l, r) => Some (String c l, r)
           | None => None
           end
  end.

(** An option tuple: the action (or none for an unknown option), the
    option string and the explicit argument glued to it. *)
Definition option_tuple : Type := option action * string * option string.

Definition get_option_tuples (t : option_table) (arg : string) : list option_tuple :=
  match arg with
  | String "-" (String "-" _) =>
      let '(option_prefix, explicit_arg) :=
        match split_eq arg with
        | Some (l, r) => (l, Some r)
        | None => (arg, None)
        end in
      omap (fun '(os, a) =>
              if String.prefix option_prefix os
              then Some (Some a, os, explicit_arg) else None) t
  | String "-" (String c rest) =>
      let short_option_prefix := String "-" (String c EmptyString) in
      omap (fun '(os, a) =>
              if String.eqb os short_option_prefix then Some (Some a, os, Some rest)
              else if String.prefix arg os then Some (Some a, os, None)
              else None) t
  | _ => []
  end.

Definition is_digit (c : ascii) : bool :=
  let n := nat_of_ascii c in (48 <=? n)%nat && (n <=? 57)%nat.

Fixpoint all_digits (s : string) : bool :=
  match s with
  | EmptyString => true
  | String c s' => is_digit c && all_digits s'
  end.

(** After any digits, a dot and at least one digit up to the end. *)
Fixpoint digits_dot_digits (s : string) : bool :=
  match s with
  | EmptyString => false
  | String c s' =>
      if Ascii.eqb c "." then negb (String.eqb s' "") && all_digits s'
      else is_digit c && digits_dot_digits s'
  end.

(** [_negative_number_matcher]: [^-\d+$|^-\d*\.\d+$]. *)
Definition negative_number (arg : string) : bool :=
  match arg with
  | String "-" s => (negb (String.eqb s "") && all_digits s) || digits_dot_digits s
  | _ => false
  end.

Fixpoint has_space (s : string) : bool :=
  match s with
  | EmptyString => false
  | String c s' => Ascii.eqb c " " || has_space s'
  end.

(** [_parse_optional]: [inr None] is a positional, [inr (Some tup)] an
    option, [inl] the error the parser leaves with. *)
Definition parse_optional (t : option_table) (arg : string)
  : usage_error + option option_tuple :=
  match arg with
  | EmptyString => inr None
  | String c rest =>
      if negb (Ascii.eqb c "-") then inr None
      else match lookup_option t arg with
      | Some a => inr (Some (Some a, arg, None))
      | None =>
          if String.eqb rest "" then inr None
          else
            let by_eq :=
              match split_eq arg with
              | Some (os, explicit_arg) =>
                  match lookup_option t os with
                  | Some a => Some (Some a, os, Some explicit_arg)
                  | None => None
                  end
              | None => None
              end in
            match by_eq with
            | Some tup => inr (Some tup)
            | None =>
                match get_option_tuples t arg with
                | [tup] => inr (Some tup)
                | (_ :: _ :: _) as tups =>
                    inl (AmbiguousOption arg (map (fun tup => snd (fst tup)) tups))
                | [] =>
                    if negative_number arg then inr None
                    else if has_space arg then inr None
                    else inr (Some (None, arg, None))
                end
            end
      end
  end.

(** First pass of [_parse_known_args]: every argument is classified;
    after ["--"] all arguments are positionals. *)
Fixpoint classify_args (t : option_table) (args : list string)
  : usage_error + list (string * option option_tuple) :=
  match args with
  | [] => inr []
  | arg :: rest =>
      if String.eqb arg "--" then inr (map (fun a => (a, None)) args)
      else match parse_optional t arg with
           | inl err => inl err
           | inr tup =>
               match classify_args t rest with
               | inl err => inl err
               | inr toks => inr ((arg, tup) :: toks)
               end
           end
  end.

(** The loop of [consume_optional] for an option that came with an
    explicit argument: an option without arguments spelled with one dash
    takes the next character as a further short option. *)
Fixpoint consume_explicit (t : option_table) (a : action) (option_string : string)
    (explicit_arg : string) (action_tuples : list action)
  : usage_error + list action :=
  match explicit_arg with
  | EmptyString => inl (IgnoredExplicit a explicit_arg)
  | String c new_explicit_arg =>
      match option_string with
      | String _ (String "-" _) => inl (IgnoredExplicit a explicit_arg)
      | _ =>
          let action_tuples := action_tuples ++ [a] in
          let option_string := String "-" (String c EmptyString) in
          match lookup_option t option_string with
          | Some a' =>
              match new_explicit_arg with
              | EmptyString => inr (action_tuples ++ [a'])
              | _ => consume_explicit t a' option_string new_explicit_arg action_tuples
              end
          | None => inl (IgnoredExplicit a explicit_arg)
          end
      end
  end.

Definition consume_optional (t : option_table) (a : action) (option_string : string)
    (explicit_arg : option string) : usage_error + list action :=
  match explicit_arg with
  | Some e => consume_explicit t a option_string e []
  | None => inr [a]
  end.

(** The namespace: attribute name to value. *)
Abbreviation namespace := (gmap string bool).

Inductive parse_result :=
| Parsed (ns : namespace)
| HelpExit
| UsageError (err : usage_error).

(** [take_action] over the collected actions: [store_true] sets its
    attribute, help prints and leaves at once ([None]). *)
Fixpoint take_actions (acts : list action) (ns : namespace) : option namespace :=
  match acts with
  | [] => Some ns
  | HelpAction :: _ => None
  | StoreTrue dest :: acts' => take_actions acts' (<[dest := true]> ns)
  end.

(** Second pass: options act in order, arguments nobody takes gather in
    [extras], and any extra is an error at the end ([parse_args]). *)
Fixpoint consume (t : option_table) (toks : list (string * option option_tuple))
    (ns : namespace) (extras : list string) : parse_result :=
  match toks with
  | [] =>
      match extras with
      | [] => Parsed ns
      | _ => UsageError (Unrecognized extras)
      end
  | (arg, None) :: rest => consume t rest ns (extras ++ [arg])
  | (arg, Some (None, _, _)) :: rest => consume t rest ns (extras ++ [arg])
  | (arg, Some (Some a, option_string, explicit_arg)) :: rest =>
      match consume_optional t a option_string explicit_arg with
      | inl err => UsageError err
      | inr acts =>
          match take_actions acts ns with
          | None => HelpExit
          | Some ns' => consume t rest ns' extras
          end
      end
  end.

(** Every [store_true] attribute starts as [False]. *)
Definition defaults (t : option_table) : namespace :=
  foldr (fun '(_, a) ns =>
           match a with
           | StoreTrue dest => <[dest := false]> ns
           | HelpAction => ns
           end) ∅ t.

Definition parse_args (t : option_table) (argv : list string) : parse_result :=
  match classify_args t argv with
  | inl err => UsageError err
  | inr toks => consume t toks (defaults t) []
  end.

(** [ArgumentParser(...)]: help is registered first. *)
Definition ArgumentParser : option_table :=
  [("-h", HelpAction); ("--help", HelpAction)].

Fixpoint lstrip_dash (s : string) : string :=
  match s with
  | String "-" s' => lstrip_dash s'
  | _ => s
  end.

Fixpoint replace_dash (s : string) : string :=
  match s with
  | EmptyString => EmptyString
  | String c s' => String (if Ascii.eqb c "-" then "_"%char else c) (replace_dash s')
  end.

Definition is_long (s : string) : bool :=
  match s with
  | String "-" (String "-" (String _ _)) => true
  | _ => false
  end.

(** The attribute an option writes: its first long option string, else
    its first option string, without the dashes in front. *)
Definition dest_of (option_strings : list string) : string :=
  match List.find is_long option_strings, option_strings with
  | Some l, _ => replace_dash (lstrip_dash l)
  | None, s :: _ => replace_dash (lstrip_dash s)
  | None, [] => ""
  end.

(** [parser.add_argument(option_strings..., action='store_true')]. *)
Definition add_argument (option_strings : list string) (t : option_table) : option_table :=
  t ++ map (fun s => (s, StoreTrue (dest_of option_strings))) option_strings.

(** [args.name], for the attributes the parser has set; every attribute
    of a [store_true] option is, from [defaults] on. *)
Definition getattr (ns : namespace) (name : string) : bool := default false (ns !! name).

End Argparse.

(** ** run-tests.py *)

Module RunTests.

Import Argparse.

Definition print_banner : M unit :=
  print_str "🧪 Wikipedia MCP Server - Test Runner" ;;
  print_str (str_repeat "=" 37).

Definition version_cmd : list string := ["dotnet"; "--version"].

(** Check if .NET SDK is available and show version. *)
Definition check_dotnet : M bool :=
  try_except
    (result <- subprocess_run version_cmd true ;;
     let version := strip (stdout result) in
     print [Lit "📊 .NET SDK Version: "; FmtStr version] ;;
     (if negb (startswith version "8.")
      then
        print [Lit "⚠️  Warning: Using .NET "; FmtStr version; Lit " instead of .NET 8"] ;;
        print_str "   global.json should pin to .NET 8.0.406"
      else ret tt) ;;
     print [] ;;
     ret true)
    (fun e =>
       match e with
       | CalledProcessError _ _ | FileNotFoundError =>
           Some (print_str "❌ .NET SDK not found. Please install .NET 8.0 SDK" ;;
                 print_str "   Download from: https://dotnet.microsoft.com/download" ;;
                 ret false)
       | _ => None
       end).

Definition test_cmd (project_path : string) : list string :=
  ["dotnet"; "test"; project_path;
   "--verbosity"; "normal";
   "--logger"; "console;verbosity=normal";
   "--configuration"; "Release";
   "--no-build";
   "--collect:XPlat Code Coverage"].

(** Run a specific test project. *)
Definition run_test_project (project_name project_path description : string) : M Z :=
  print [Lit "🔍 Running "; FmtStr project_name; Lit " tests..."] ;;
  print [Lit "   Description: "; FmtStr description] ;;
  print [Lit "   Path: "; FmtStr project_path] ;;
  try_finally
    (try_except
       (_ <- subprocess_run (test_cmd project_path) true ;;
        print [Lit "✅ "; FmtStr project_name; Lit " tests PASSED"] ;;
        ret 0)
       (fun e =>
          match e with
          | CalledProcessError _ rc =>
              Some (print [Lit "❌ "; FmtStr project_name;
                           Lit " tests FAILED (exit code: "; FmtInt rc; Lit ")"] ;;
                    ret rc)
          | _ => None
          end))
    (print []).

Definition build_cmd : list string := ["dotnet"; "build"; "--configuration"; "Release"].

(** Build the solution. *)
Definition build_solution : M bool :=
  print_str "🏗️  Building solution first..." ;;
  try_except
    (_ <- subprocess_run build_cmd true ;;
     print_str "✅ Build successful!" ;;
     print [] ;;
     ret true)
    (fun e =>
       match e with
       | CalledProcessError _ _ =>
           Some (print_str "❌ Build failed. Cannot run tests." ;; ret false)
       | _ => None
       end).

Definition unit_project : string * string * string :=
  ("Unit", "tests/WikipediaMcpServer.UnitTests/WikipediaMcpServer.UnitTests.csproj",
   "Core business logic and utility function tests").
Definition service_project : string * string * string :=
  ("Service", "tests/WikipediaMcpServer.ServiceTests/WikipediaMcpServer.ServiceTests.csproj",
   "Wikipedia service and MCP service layer tests").
Definition integration_project : string * string * string :=
  ("Integration",
   "tests/WikipediaMcpServer.IntegrationTests/WikipediaMcpServer.IntegrationTests.csproj",
   "End-to-end API and HTTP endpoint tests").
Definition stdio_project : string * string * string :=
  ("Stdio", "tests/WikipediaMcpServer.StdioTests/WikipediaMcpServer.StdioTests.csproj",
   "Standard I/O mode and MCP protocol tests").

(** The list [test_projects] of [run_all_tests]. *)
Definition test_projects : list (string * string * string) :=
  [unit_project; service_project; integration_project; stdio_project].

(** Run all test projects. *)
Definition run_all_tests : M Z :=
  print_str "🎯 Running ALL test projects..." ;;
  print [] ;;
  built <- build_solution ;;
  if negb built then ret 1
  else
    for_each test_projects
      (fun '(name, path, desc) total_failures =>
         r <- run_test_project name path desc ;; ret (total_failures + r))
      0.

Definition coverage_cmd : list string :=
  ["dotnet"; "test";
   "--configuration"; "Release";
   "--collect:XPlat Code Coverage";
   "--results-directory"; "./TestResults";
   "--logger"; "trx;LogFileName=TestResults.trx";
   "--verbosity"; "normal"].

(** Run all tests with code coverage. *)
Definition run_tests_with_coverage : M Z :=
  print_str "📈 Running all tests with code coverage..." ;;
  try_except
    (_ <- subprocess_run coverage_cmd true ;;
     print [] ;;
     print_str "📊 Test results saved to: ./TestResults/" ;;
     print_str "🔍 Coverage reports generated in: ./TestResults/*/coverage.cobertura.xml" ;;
     ret 0)
    (fun e =>
       match e with
       | CalledProcessError _ rc => Some (ret rc)
       | _ => None
       end).

(** The dictionary [test_configs] of [run_specific_tests]. *)
Definition test_configs : gmap string (string * string * string) :=
  <["stdio" := stdio_project]>
    (<["integration" := integration_project]>
       (<["service" := service_project]>
          (<["unit" := unit_project]> ∅))).

(** Run specific test category. *)
Definition run_specific_tests (category : string) : M Z :=
  match test_configs !! category with
  | None =>
      print [Lit "❌ Unknown test category: "; FmtStr category] ;;
      print_str "   Available categories: unit, service, integration, stdio" ;;
      ret 1
  | Some (name, path, desc) => run_test_project name path desc
  end.

Definition fast_cmd : list string :=
  ["dotnet"; "test"; "--no-build"; "--verbosity"; "normal"].

(** Run tests without building. *)
Definition run_fast_tests : M Z :=
  print_str "🏃 Running tests without building (fast mode)..." ;;
  try_except
    (_ <- subprocess_run fast_cmd true ;; ret 0)
    (fun e =>
       match e with
       | CalledProcessError _ rc => Some (ret rc)
       | _ => None
       end).

Definition watch_cmd : list string :=
  ["dotnet"; "watch"; "test"; "--verbosity"; "normal"].

(** Run tests in watch mode. *)
Definition run_watch_tests : M Z :=
  print_str "👀 Running tests in watch mode..." ;;
  print_str "   Press Ctrl+C to stop watching" ;;
  try_except
    (_ <- subprocess_run watch_cmd true ;; ret 0)
    (fun e =>
       match e with
       | CalledProcessError _ rc => Some (ret rc)
       | KeyboardInterrupt =>
           Some (print_str (nl +:+ "🛑 Watch mode stopped by user") ;; ret 0)
       | _ => None
       end).

(** Print final test summary. *)
Definition print_summary (exit_code : Z) : M unit :=
  print [] ;;
  print_str (str_repeat "=" 47) ;;
  (if exit_code =? 0
   then
     print_str "🎉 ALL TESTS PASSED! ✅" ;;
     print_str "   Wikipedia MCP Server is ready for deployment"
   else
     print_str "❌ SOME TESTS FAILED!" ;;
     print_str "   Please check the test output above for details" ;;
     print [Lit "   Exit code: "; FmtInt exit_code]) ;;
  print_str (str_repeat "=" 47).

(** The parser [main] builds. *)
Definition parser : option_table :=
  add_argument ["--watch"; "-w"]
    (add_argument ["--fast"; "-f"]
       (add_argument ["--stdio"]
          (add_argument ["--integration"; "-i"]
             (add_argument ["--service"; "-s"]
                (add_argument ["--unit"; "-u"]
                   (add_argument ["--coverage"; "-c"]
                      (add_argument ["--all"; "-a"] ArgumentParser))))))).

(** [parser.parse_args()] on the command line [argv]: help leaves with
    status 0, a usage error with status 2. *)
Definition parse_command_line (argv : list string) : M namespace :=
  match parse_args parser argv with
  | Parsed ns => ret ns
  | HelpExit => emit EHelp ;; sys_exit 0
  | UsageError _ => emit EUsage ;; sys_exit 2
  end.

(** The [if]/[elif] chain of [main] that determines what to run. *)
Definition dispatch (args : namespace) : M Z :=
  if getattr args "coverage" then run_tests_with_coverage
  else if getattr args "unit" then run_specific_tests "unit"
  else if getattr args "service" then run_specific_tests "service"
  else if getattr args "integration" then run_specific_tests "integration"
  else if getattr args "stdio" then run_specific_tests "stdio"
  else if getattr args "fast" then run_fast_tests
  else if getattr args "watch" then run_watch_tests
  else run_all_tests.

Definition main (argv : list string) : M unit :=
  chdir_script_dir ;;
  args <- parse_command_line argv ;;
  print_banner ;;
  ok <- check_dotnet ;;
  if negb ok then sys_exit 1
  else
    exit_code <- dispatch args ;;
    print_summary exit_code ;;
    sys_exit exit_code.

End RunTests.

(** ** start-server.py *)

Module StartServer.

Definition print_banner : M unit :=
  print_str "🚀 Starting Wikipedia MCP Server for Local Testing" ;;
  print_str (str_repeat "=" 50).

Definition version_cmd : list string := ["dotnet"; "--version"].

(** Check if .NET SDK is available and using correct version. *)
Definition check_dotnet : M bool :=
  try_except
    (result <- subprocess_run version_cmd true ;;
     let version := strip (stdout result) in
     print [Lit "✅ .NET SDK found: "; FmtStr version] ;;
     (if negb (startswith version "8.")
      then
        print [Lit "⚠️  Warning: Using .NET "; FmtStr version; Lit " instead of .NET 8"] ;;
        print_str "   global.json should pin to .NET 8.0.406"
      else ret tt) ;;
     ret true)
    (fun e =>
       match e with
       | CalledProcessError _ _ | FileNotFoundError =>
           Some (print_str "❌ .NET SDK not found. Please install .NET 8.0 SDK" ;;
                 print_str "   Download from: https://dotnet.microsoft.com/download" ;;
                 ret false)
       | _ => None
       end).

Definition project_path : string := "src/WikipediaMcpServer/WikipediaMcpServer.csproj".

(** Check if project file exists. *)
Definition check_project : M bool :=
  found <- os_path_exists project_path ;;
  if negb found
  then
    print_str "❌ Project file not found. Make sure you're in the correct directory." ;;
    ret false
  else ret true.

Definition taskkill_cmd : list string := ["taskkill"; "/f"; "/im"; "dotnet.exe"].
Definition pkill_cmd : list string := ["pkill"; "-f"; "dotnet.*WikipediaMcpServer"].

(** Kill any existing server instances.  The bare [except:] takes every
    exception. *)
Definition kill_existing_processes : M unit :=
  print_str "🧹 Cleaning up any existing server instances..." ;;
  system <- get_platform_system ;;
  (if String.eqb system "Windows"
   then
     try_except
       (_ <- subprocess_run taskkill_cmd false ;; ret tt)
       (fun _ => Some (ret tt))
   else
     try_except
       (_ <- subprocess_run pkill_cmd false ;; ret tt)
       (fun _ => Some (ret tt))) ;;
  time_sleep 2.

Definition build_cmd : list string := ["dotnet"; "build"; project_path].

(** Build the project. *)
Definition build_project : M bool :=
  print_str "🔨 Building the project..." ;;
  try_except
    (_ <- subprocess_run build_cmd true ;;
     print_str "✅ Build successful!" ;;
     ret true)
    (fun e =>
       match e with
       | CalledProcessError _ _ =>
           Some (print_str "❌ Build failed. Please check the build errors above." ;;
                 ret false)
       | _ => None
       end).

(** Print server information. *)
Definition print_server_info : M unit :=
  print_str (nl +:+ "🌐 Starting server on http://localhost:5070") ;;
  print_str "📝 Server logs will be displayed below..." ;;
  print_str "⏹️  Press Ctrl+C to stop the server" ;;
  print_str (nl +:+ "Available endpoints:") ;;
  print_str "  🏥 Health: http://localhost:5070/health" ;;
  print_str "  ℹ️  Info:   http://localhost:5070/info" ;;
  print_str "  📋 Swagger: http://localhost:5070/swagger" ;;
  print_str "  🔗 MCP JSON-RPC: http://localhost:5070/mcp/rpc" ;;
  print_str "  🔗 MCP SDK: http://localhost:5070/mcp" ;;
  print_str (nl +:+ "Ready for Postman testing! 🚀") ;;
  print_str "Use WikipediaMcpServer-MCP-JsonRPC-Collection.json for comprehensive testing" ;;
  print [].

Definition run_cmd : list string := ["dotnet"; "run"; "--project"; project_path].

(** Start the server. *)
Definition start_server : M unit :=
  try_except
    (_ <- subprocess_run run_cmd true ;; ret tt)
    (fun e =>
       match e with
       | KeyboardInterrupt => Some (print_str (nl +:+ "🛑 Server stopped by user"))
       | CalledProcessError _ _ => Some (print [Lit "❌ Server failed to start: "; FmtExn e])
       | _ => None
       end).

Definition main : M unit :=
  chdir_script_dir ;;
  print_banner ;;
  ok <- check_dotnet ;;
  if negb ok then sys_exit 1
  else
    found <- check_project ;;
    if negb found then sys_exit 1
    else
      kill_existing_processes ;;
      built <- build_project ;;
      if negb built then sys_exit 1
      else
        print_server_info ;;
        start_server.

End StartServer.

(** ** Vocabulary of the statements *)

(** The sum of the units' exit codes. *)
Definition sum_codes (codes : list Z) : Z := foldr Z.add 0 codes.

(** The command that runs one registered unit. *)
Definition unit_cmd (p : string * string * string) : list string :=
  RunTests.test_cmd (snd (fst p)).

(** From the [n]-th spawn on, the units [projects] are run one after the
    other and each leaves with the exit code [codes] gives it. *)
Fixpoint units_exit_with (ev : env) (n : nat)
    (projects : list (string * string * string)) (codes : list Z) : Prop :=
  match projects, codes with
  | [], [] => True
  | p :: projects', c :: codes' =>
      (exists out, child ev n (unit_cmd p) = Exited c out)
      /\ units_exit_with ev (S n) projects' codes'
  | _, _ => False
  end.

(** An environment that answers the spawns of a run from a script, one
    outcome per spawn whatever the command, and [ENOENT] once the script
    is used up. *)
Definition scripted (system : string) (present : bool) (script : list proc_outcome) : env :=
  {| platform_system := system;
     path_exists := fun _ => present;
     child := fun n _ => nth n script (Failed ENOENT) |}.

(** The operating modes of the test runner. *)
Inductive mode :=
| Coverage
| Specific (category : string)
| Fast
| Watch
| All.

(** The mode flags from the highest priority to the lowest, each with
    the mode it selects. *)
Definition priority : list (string * mode) :=
  [("coverage", Coverage); ("unit", Specific "unit"); ("service", Specific "service");
   ("integration", Specific "integration"); ("stdio", Specific "stdio");
   ("fast", Fast); ("watch", Watch)].

(** The mode of the first flag in priority order that is set, and [All]
    when none is. *)
Definition selected_mode (args : gmap string bool) : mode :=
  match List.find (fun p => Argparse.getattr args (fst p)) priority with
  | Some (_, m) => m
  | None => All
  end.

Definition run_mode (m : mode) : M Z :=
  match m with
  | Coverage => RunTests.run_tests_with_coverage
  | Specific category => RunTests.run_specific_tests category
  | Fast => RunTests.run_fast_tests
  | Watch => RunTests.run_watch_tests
  | All => RunTests.run_all_tests
  end.

(** The spellings of the eight mode flags on the command line, each with
    the attribute it sets. *)
Definition spellings : list (string * string) :=
  [("--all", "all"); ("-a", "all"); ("--coverage", "coverage"); ("-c", "coverage");
   ("--unit", "unit"); ("-u", "unit"); ("--service", "service"); ("-s", "service");
   ("--integration", "integration"); ("-i", "integration"); ("--stdio", "stdio");
   ("--fast", "fast"); ("-f", "fast"); ("--watch", "watch"); ("-w", "watch")].

(** The attribute a spelling sets, if it is one. *)
Definition flag_of (s : string) : option string :=
  snd <$> List.find (fun p => String.eqb (fst p) s) spellings.

Definition is_spelling (s : string) : Prop := is_Some (flag_of s).

(** [argv] spells a flag of attribute [dest]. *)
Definition spelled (argv : list string) (dest : string) : Prop :=
  exists s, s ∈ argv /\ flag_of s = Some dest.

(** The namespace after the flags [argv] spells are set. *)
Definition set_flags (argv : list string) (ns : gmap string bool) : gmap string bool :=
  foldl (fun ns s => match flag_of s with
                     | Some dest => <[dest := true]> ns
                     | None => ns
                     end) ns argv.

(** An argument the parser of run-tests.py takes neither for an option
    nor for an abbreviation of one: a positional or an unknown option. *)
Definition unrecognized (arg : string) : bool :=
  match Argparse.parse_optional RunTests.parser arg with
  | inr None => true
  | inr (Some (None, _, _)) => true
  | _ => false
  end.

(** A command that asks the toolchain for a build: [dotnet build ...]. *)
Definition is_build_cmd (cmd : list string) : bool :=
  match cmd with
  | _ :: sub :: _ => String.eqb sub "build"
  | _ => false
  end.

(** The steps of the server start-up flow, and the effect by which each
    shows in the trace. *)
Inductive step :=
| CheckPrerequisites
| CheckProjectExists
| KillStaleInstances
| Build
| PrintEndpoints
| RunBlocking.

Definition cmd_eqb (c1 c2 : list string) : bool := bool_decide (c1 = c2).

Definition step_of (e : event) : option step :=
  match e with
  | ESpawn cmd =>
      if cmd_eqb cmd StartServer.version_cmd then Some CheckPrerequisites
      else if cmd_eqb cmd StartServer.taskkill_cmd || cmd_eqb cmd StartServer.pkill_cmd
           then Some KillStaleInstances
      else if cmd_eqb cmd StartServer.build_cmd then Some Build
      else if cmd_eqb cmd StartServer.run_cmd then Some RunBlocking
      else None
  | EExists _ => Some CheckProjectExists
  | EOut [Lit s] =>
      if String.eqb s (nl +:+ "Available endpoints:") then Some PrintEndpoints else None
  | _ => None
  end.

Definition steps (tr : trace) : list step := omap step_of tr.

(** The scope identifiers the registry declares. *)
Definition valid_categories : list string := ["unit"; "service"; "integration"; "stdio"].

(** Scenarios: the build succeeds and the service unit fails with 1;
    the build succeeds, a signal kills the unit tests (return code -1)
    and the service tests fail with 1. *)
Definition env_service_fails : env :=
  scripted "Linux" true [Exited 0 ""; Exited 0 ""; Exited 1 ""; Exited 0 ""; Exited 0 ""].

Definition env_codes_cancel : env :=
  scripted "Linux" true [Exited 0 ""; Exited (-1) ""; Exited 1 ""; Exited 0 ""; Exited 0 ""].

(** Scenario: the build leaves with return code 1. *)
Definition env_build_fails : env := scripted "Linux" true [Exited 1 ""].

(** Whatever the environment does, [m] extends the trace, and every
    command it spawns satisfies [P]. *)
Definition only_spawns (P : list string -> Prop) {A} (m : M A) : Prop :=
  forall ev tr, exists r l, m ev tr = (r, tr ++ l) /\ Forall P (spawns l).

Definition not_build (cmd : list string) : Prop := is_build_cmd cmd = false.

(** Scenarios of a run of run-tests.py: the toolchain answers the
    version query, then the operator interrupts the watch; or the unit
    tests succeed. *)
Definition env_watch_interrupted : env :=
  scripted "Linux" true [Exited 0 "8.0.406"; Failed SIGINT].

Definition env_unit_passes : env := scripted "Linux" true [Exited 0 "8.0.406"; Exited 0 ""].

(** The order of the steps of the start-up flow. *)
Definition lifecycle : list step :=
  [CheckPrerequisites; CheckProjectExists; KillStaleInstances; Build; PrintEndpoints;
   RunBlocking].

(** The command that terminates stale instances on a host. *)
Definition kill_cmd_on (system : string) : list string :=
  if String.eqb system "Windows" then StartServer.taskkill_cmd else StartServer.pkill_cmd.

(** Scenarios of a run of start-server.py: the project file is missing;
    the operator interrupts the running server; the server leaves on its
    own with return code 3.  The second spawn is the kill command, which
    finds no process to kill. *)
Definition env_project_missing : env := scripted "Linux" false [Exited 0 "8.0.406"].

Definition env_server_interrupted : env :=
  scripted "Linux" true [Exited 0 "8.0.406"; Exited 1 ""; Exited 0 ""; Failed SIGINT].

Definition env_server_exits_3 : env :=
  scripted "Linux" true [Exited 0 "8.0.406"; Exited 1 ""; Exited 0 ""; Exited 3 ""].

(** The trace when [main] of start-server.py comes to its first check. *)
Definition start_trace : trace :=
  (([] ++ [EChdir]) ++ [EOut [Lit "🚀 Starting Wikipedia MCP Server for Local Testing"]])
  ++ [EOut [Lit (str_repeat "=" 50)]].

(** ** Vocabulary of the further properties *)

(** Whatever the environment does, [m] extends the trace with events
    that satisfy [Qe] only, and an exception it raises satisfies [Qx]. *)
Definition confined (Qe : event -> Prop) (Qx : exn -> Prop) {A} (m : M A) : Prop :=
  forall ev tr, exists r l,
    m ev tr = (r, tr ++ l) /\ Forall Qe l /\ (forall e, r = Raise e -> Qx e).



Definition any_event (e : event) : Prop := True.

(** An exception that, if it is a [SystemExit], carries the status 1. *)
Definition exits_with_1 (e : exn) : Prop := forall c, e = SystemExit c -> c = 1.



(** The options that ask for help. *)
Definition help_flags : list string := ["-h"; "--help"].

(** An argument that is a spelling of a mode flag or is unrecognized. *)
Definition flag_or_unrecognized (s : string) : Prop :=
  is_spelling s \/ unrecognized s = true.

(** Whether [argv] spells a flag of attribute [dest]. *)
Definition spelledb (argv : list string) (dest : string) : bool :=
  existsb (fun s => bool_decide (flag_of s = Some dest)) argv.

(** The lines [run_test_project] prints for a unit that passed and for
    one that failed with return code [rc]. *)
Definition unit_passed_line (name : string) : event :=
  EOut [Lit "✅ "; FmtStr name; Lit " tests PASSED"].
Definition unit_failed_line (name : string) (rc : Z) : event :=
  EOut [Lit "❌ "; FmtStr name; Lit " tests FAILED (exit code: "; FmtInt rc; Lit ")"].

(** The warning of [check_dotnet] about a version that is not 8.x. *)
Definition version_warning (version : string) : event :=
  EOut [Lit "⚠️  Warning: Using .NET "; FmtStr version; Lit " instead of .NET 8"].

(** Scenarios: the toolchain is missing; the build succeeds, the unit
    tests pass and the operator interrupts the service tests; the build
    cannot be spawned. *)
Definition env_no_dotnet : env := scripted "Linux" true [Failed ENOENT].

Definition env_interrupted_at_service : env :=
  scripted "Linux" true [Exited 0 ""; Exited 0 ""; Failed SIGINT].

Definition env_build_not_spawned : env := scripted "Linux" true [Failed ENOENT].

(** The [n]-th spawn, of the command [cmd], finds no program or the
    program leaves with a non-zero return code. *)
Definition unavailable (ev : env) (n : nat) (cmd : list string) : Prop :=
  child ev n cmd = Failed ENOENT
  \/ exists rc out, rc <> 0 /\ child ev n cmd = Exited rc out.


(** [main] of start-server.py up to the start of the server. *)
Definition up_to_run : M unit :=
  chdir_script_dir ;;
  StartServer.print_banner ;;
  ok <- StartServer.check_dotnet ;;
  if negb ok then sys_exit 1
  else
    found <- StartServer.check_project ;;
    if negb found then sys_exit 1
    else
      StartServer.kill_existing_processes ;;
      built <- StartServer.build_project ;;
      if negb built then sys_exit 1
      else StartServer.print_server_info.

(** An event that is not the spawn of the server. *)
Definition not_run (e : event) : Prop := e <> ESpawn StartServer.run_cmd.

(** Scenarios of a run of start-server.py: the build leaves with return
    code 1; the toolchain is missing. *)
Definition env_server_build_fails : env :=
  scripted "Linux" true [Exited 0 "8.0.406"; Exited 1 ""; Exited 1 ""].

(** The long spellings of the mode flags. *)
Definition long_spellings : list (string * string) :=
  filter (fun p => Argparse.is_long (fst p) = true) spellings.

(** The prefixes of a string, the empty one and the string itself among
    them. *)
Fixpoint prefixes (s : string) : list string :=
  match s with
  | EmptyString => [EmptyString]
  | String c s' => EmptyString :: map (String c) (prefixes s')
  end.

(** * Properties *)

(** ** Traces and spawn counts *)

Lemma spawns_app (tr1 tr2 : trace) : spawns (tr1 ++ tr2) = spawns tr1 ++ spawns tr2.
Proof. unfold spawns. apply omap_app. Qed.

Lemma spawns_out (tr : trace) (line : list fpart) : spawns (tr ++ [EOut line]) = spawns tr.
Proof. rewrite spawns_app. simpl. apply app_nil_r. Qed.

Lemma spawn_count_app (tr1 tr2 : trace) :
  spawn_count (tr1 ++ tr2) = (spawn_count tr1 + spawn_count tr2)%nat.
Proof. unfold spawn_count. by rewrite spawns_app, length_app. Qed.

Lemma spawn_count_out (tr : trace) (line : list fpart) :
  spawn_count (tr ++ [EOut line]) = spawn_count tr.
Proof. rewrite spawn_count_app. unfold spawn_count. simpl. lia. Qed.

Lemma spawn_count_spawn (tr : trace) (cmd : list string) :
  spawn_count (tr ++ [ESpawn cmd]) = S (spawn_count tr).
Proof. rewrite spawn_count_app. unfold spawn_count. simpl. lia. Qed.

Lemma bind_ret {A B} (m : M A) (k : A -> M B) ev tr a tr' :
  m ev tr = (Ret a, tr') -> bind m k ev tr = k a ev tr'.
Proof. unfold bind. by intros ->. Qed.

Lemma bind_raise {A B} (m : M A) (k : A -> M B) ev tr e tr' :
  m ev tr = (Raise e, tr') -> bind m k ev tr = (Raise e, tr').
Proof. unfold bind. by intros ->. Qed.

Lemma bind_print {B} (line : list fpart) (k : unit -> M B) ev tr :
  bind (print line) k ev tr = k tt ev (tr ++ [EOut line]).
Proof. reflexivity. Qed.

Lemma sum_codes_app (l1 l2 : list Z) : sum_codes (l1 ++ l2) = sum_codes l1 + sum_codes l2.
Proof. unfold sum_codes. induction l1 as [|c l1 IH]; simpl; lia. Qed.

Lemma sum_codes_zero (codes : list Z) : Forall (fun c => c = 0) codes -> sum_codes codes = 0.
Proof. unfold sum_codes. induction 1; simpl; lia. Qed.

Lemma sum_codes_nonneg (codes : list Z) : Forall (fun c => 0 <= c) codes -> 0 <= sum_codes codes.
Proof. unfold sum_codes. induction 1; simpl; lia. Qed.

Lemma sum_codes_nonzero (codes : list Z) :
  Forall (fun c => 0 <= c) codes ->
  sum_codes codes <> 0 <-> Exists (fun c => c <> 0) codes.
Proof.
  induction 1 as [|c codes Hc Hcs IH].
  - split; [done | by intros H%Exists_nil].
  - pose proof (sum_codes_nonneg codes Hcs) as Hs.
    change (sum_codes (c :: codes)) with (c + sum_codes codes).
    rewrite Exists_cons, <- IH. lia.
Qed.

(** ** run-tests.py: running one unit, building, running them all *)

(** What [run_test_project] leaves in the trace when the unit's process
    leaves with [rc]. *)
Lemma run_test_project_exited ev tr name path desc rc out :
  child ev (spawn_count tr) (RunTests.test_cmd path) = Exited rc out ->
  exists l, RunTests.run_test_project name path desc ev tr = (Ret rc, tr ++ l)
            /\ spawns l = [RunTests.test_cmd path].
Proof.
  intros Hc.
  unfold RunTests.run_test_project. rewrite !bind_print.
  unfold try_finally, try_except, bind, subprocess_run, print, emit, ret.
  rewrite !spawn_count_out, Hc.
  destruct (Z.eqb_spec rc 0) as [->|Hne]; simpl;
    rewrite <- !app_assoc; simpl; eexists; (split; [reflexivity|done]).
Qed.

Lemma build_solution_ok ev tr out :
  child ev (spawn_count tr) RunTests.build_cmd = Exited 0 out ->
  exists l, RunTests.build_solution ev tr = (Ret true, tr ++ l)
            /\ spawns l = [RunTests.build_cmd].
Proof.
  intros Hc. unfold RunTests.build_solution, print_str. rewrite bind_print.
  unfold try_except, bind, subprocess_run, print, emit, ret.
  rewrite spawn_count_out, Hc. simpl.
  rewrite <- !app_assoc; simpl. eexists; (split; [reflexivity|done]).
Qed.

Lemma build_solution_failed ev tr rc out :
  child ev (spawn_count tr) RunTests.build_cmd = Exited rc out -> rc <> 0 ->
  RunTests.build_solution ev tr =
    (Ret false, tr ++ [EOut [Lit "🏗️  Building solution first..."];
                       ESpawn RunTests.build_cmd;
                       EOut [Lit "❌ Build failed. Cannot run tests."]]).
Proof.
  intros Hc Hrc. unfold RunTests.build_solution, print_str. rewrite bind_print.
  unfold try_except, bind, subprocess_run, print, emit, ret.
  rewrite spawn_count_out, Hc.
  destruct (Z.eqb_spec rc 0) as [|_]; [done|]. simpl.
  by rewrite <- !app_assoc.
Qed.

(** The loop of [run_all_tests] over any list of units: every unit is
    run, whatever the exit codes of the units before it, and the codes
    are added to the running total. *)
Lemma for_each_units ev projects : forall codes tr total,
  units_exit_with ev (spawn_count tr) projects codes ->
  exists l,
    for_each projects
      (fun '(name, path, desc) total_failures =>
         bind (RunTests.run_test_project name path desc)
              (fun r => ret (total_failures + r)))
      total ev tr
    = (Ret (total + sum_codes codes), tr ++ l)
    /\ spawns l = map unit_cmd projects.
Proof.
  induction projects as [|[[name path] desc] projects IH]; intros [|c codes] tr total H;
    simpl in H; try done.
  - exists []. simpl. unfold ret. by rewrite app_nil_r, Z.add_0_r.
  - destruct H as [[out Hc] Hrest].
    destruct (run_test_project_exited ev tr name path desc c out Hc) as (l1 & Hrun & Hl1).
    assert (Hn : spawn_count (tr ++ l1) = S (spawn_count tr)).
    { rewrite spawn_count_app. unfold spawn_count at 2. rewrite Hl1. simpl. lia. }
    rewrite <- Hn in Hrest.
    destruct (IH codes (tr ++ l1) (total + c) Hrest) as (l2 & Hloop & Hl2).
    exists (l1 ++ l2). split.
    + simpl for_each. erewrite bind_ret; [|erewrite bind_ret; [reflexivity|exact Hrun]].
      rewrite Hloop. f_equal; [f_equal; simpl; lia | by rewrite app_assoc].
    + rewrite spawns_app, Hl1, Hl2. done.
Qed.

(** C1: in "all" mode, after a successful build, each of the
    four registered units is run, in the order of the registry and
    whatever the exit codes of the units before it, and the value
    returned is the arithmetic sum of the units' exit codes.  The sum is
    zero when every unit succeeds and, provided no exit code is negative,
    it is non-zero exactly when some unit failed. *)
Theorem run_all_tests_runs_every_unit ev tr out codes :
  child ev (spawn_count tr) RunTests.build_cmd = Exited 0 out ->
  units_exit_with ev (S (spawn_count tr)) RunTests.test_projects codes ->
  exists tr',
    RunTests.run_all_tests ev tr = (Ret (sum_codes codes), tr')
    /\ spawns tr' = spawns tr ++ RunTests.build_cmd :: map unit_cmd RunTests.test_projects
    /\ (Forall (fun c => c = 0) codes -> sum_codes codes = 0)
    /\ (Forall (fun c => 0 <= c) codes ->
        (sum_codes codes <> 0 <-> Exists (fun c => c <> 0) codes)).
Proof.
  intros Hb Hu.
  unfold RunTests.run_all_tests, print_str. rewrite !bind_print.
  destruct (build_solution_ok ev ((tr ++ [EOut [Lit "🎯 Running ALL test projects..."]])
                                     ++ [EOut []]) out) as (l1 & Hbuild & Hl1).
  { by rewrite !spawn_count_out. }
  erewrite bind_ret by exact Hbuild. cbn [negb].
  destruct (for_each_units ev RunTests.test_projects codes
              (((tr ++ [EOut [Lit "🎯 Running ALL test projects..."]]) ++ [EOut []]) ++ l1) 0)
    as (l2 & Hloop & Hl2).
  { rewrite spawn_count_app, !spawn_count_out. unfold spawn_count at 2.
    rewrite Hl1. change (List.length [RunTests.build_cmd]) with 1%nat.
    by rewrite Nat.add_1_r. }
  eexists. split; [exact Hloop|]. split.
  - rewrite 2!spawns_app, !spawns_out, Hl1, Hl2. by rewrite <- app_assoc.
  - split; [apply sum_codes_zero | apply sum_codes_nonzero].
Qed.

Lemma run_all_tests_runs_every_unit_witness :
  exists tr',
    RunTests.run_all_tests env_service_fails [] = (Ret (sum_codes [0; 1; 0; 0]), tr')
    /\ spawns tr' = spawns [] ++ RunTests.build_cmd :: map unit_cmd RunTests.test_projects
    /\ (Forall (fun c => c = 0) [0; 1; 0; 0] -> sum_codes [0; 1; 0; 0] = 0)
    /\ (Forall (fun c => 0 <= c) [0; 1; 0; 0] ->
        (sum_codes [0; 1; 0; 0] <> 0 <-> Exists (fun c => c <> 0) [0; 1; 0; 0])).
Proof.
  apply (run_all_tests_runs_every_unit env_service_fails [] "" [0; 1; 0; 0]).
  - reflexivity.
  - simpl. repeat split; exists ""; reflexivity.
Defined.

(** C1, without the proviso: when a signal kills the unit tests (return
    code -1) and the service tests leave with 1, two units have failed
    and the sum of the exit codes is 0. *)
Lemma run_all_tests_sum_can_cancel :
  units_exit_with env_codes_cancel 1 RunTests.test_projects [-1; 1; 0; 0]
  /\ fst (RunTests.run_all_tests env_codes_cancel []) = Ret 0
  /\ Exists (fun c => c <> 0) [-1; 1; 0; 0].
Proof.
  split; [|split].
  - simpl. repeat split; exists ""; reflexivity.
  - vm_compute. reflexivity.
  - apply Exists_cons_hd. lia.
Qed.

(** C2: in "all" mode, when the build leaves with a non-zero return
    code, [run_all_tests] returns 1 at once and the build is the only
    command it has spawned: no unit is run. *)
Theorem run_all_tests_build_gates_units ev tr rc out :
  child ev (spawn_count tr) RunTests.build_cmd = Exited rc out ->
  rc <> 0 ->
  exists l,
    RunTests.run_all_tests ev tr = (Ret 1, tr ++ l)
    /\ spawns l = [RunTests.build_cmd]
    /\ Forall (fun p => unit_cmd p ∉ spawns l) RunTests.test_projects.
Proof.
  intros Hb Hrc.
  unfold RunTests.run_all_tests, print_str. rewrite !bind_print.
  erewrite bind_ret.
  2:{ apply (build_solution_failed _ _ rc out); [|done]. by rewrite !spawn_count_out. }
  cbn [negb]. unfold ret. rewrite <- !app_assoc. simpl.
  eexists. split; [reflexivity|]. split; [done|].
  simpl. repeat constructor; by intros [Heq|Hin%elem_of_nil]%elem_of_cons.
Qed.

Lemma run_all_tests_build_gates_units_witness :
  exists l,
    RunTests.run_all_tests env_build_fails [] = (Ret 1, [] ++ l)
    /\ spawns l = [RunTests.build_cmd]
    /\ Forall (fun p => unit_cmd p ∉ spawns l) RunTests.test_projects.
Proof.
  apply (run_all_tests_build_gates_units env_build_fails [] 1 ""); [reflexivity | lia].
Defined.

Lemma bind_emit {B} (e : event) (k : unit -> M B) ev tr :
  bind (emit e) k ev tr = k tt ev (tr ++ [e]).
Proof. reflexivity. Qed.

Lemma bind_ret_l {A B} (a : A) (k : A -> M B) ev tr : bind (ret a) k ev tr = k a ev tr.
Proof. reflexivity. Qed.

Lemma bind_assoc {A B C} (m : M A) (f : A -> M B) (k : B -> M C) ev tr :
  bind (bind m f) k ev tr = bind m (fun x => bind (f x) k) ev tr.
Proof. unfold bind. by destruct (m ev tr) as [[a|e] tr']. Qed.

(** *** Computations that spawn only commands of a given kind *)

Section OnlySpawns.

Variable P : list string -> Prop.

Lemma only_spawns_ret {A} (a : A) : only_spawns P (ret a).
Proof. intros ev tr. exists (Ret a), []. by rewrite app_nil_r. Qed.

Lemma only_spawns_raise {A} (e : exn) : only_spawns P (@raise A e).
Proof. intros ev tr. exists (Raise e), []. by rewrite app_nil_r. Qed.

Lemma only_spawns_sys_exit {A} (code : Z) : only_spawns P (@sys_exit A code).
Proof. apply only_spawns_raise. Qed.

Lemma only_spawns_emit (e : event) :
  (forall cmd, e = ESpawn cmd -> P cmd) -> only_spawns P (emit e).
Proof.
  intros He ev tr. exists (Ret tt), [e]. split; [done|].
  destruct e; simpl; auto.
Qed.

Lemma only_spawns_print (line : list fpart) : only_spawns P (print line).
Proof. by apply only_spawns_emit. Qed.

Lemma only_spawns_print_str (s : string) : only_spawns P (print_str s).
Proof. apply only_spawns_print. Qed.

Lemma only_spawns_subprocess_run (cmd : list string) (check : bool) :
  P cmd -> only_spawns P (subprocess_run cmd check).
Proof.
  intros Hc ev tr. unfold subprocess_run.
  destruct (child ev (spawn_count tr) cmd) as [rc out|err];
    [destruct (check && negb (rc =? 0))|]; eexists _, [ESpawn cmd];
    (split; [reflexivity|]); simpl; auto.
Qed.

Lemma only_spawns_bind {A B} (m : M A) (k : A -> M B) :
  only_spawns P m -> (forall a, only_spawns P (k a)) -> only_spawns P (bind m k).
Proof.
  intros Hm Hk ev tr. destruct (Hm ev tr) as (r & l & Hr & Hl).
  unfold bind. rewrite Hr. destruct r as [a|e].
  - destruct (Hk a ev (tr ++ l)) as (r' & l' & Hr' & Hl').
    exists r', (l ++ l'). rewrite Hr', app_assoc, spawns_app. split; [done|].
    by apply Forall_app.
  - by exists (Raise e), l.
Qed.

Lemma only_spawns_bind_ret {A B} (a : A) (k : A -> M B) :
  only_spawns P (k a) -> only_spawns P (bind (ret a) k).
Proof. intros Hk ev tr. rewrite bind_ret_l. apply Hk. Qed.

Lemma only_spawns_try_except {A} (body : M A) (handler : exn -> option (M A)) :
  only_spawns P body ->
  (forall e h, handler e = Some h -> only_spawns P h) ->
  only_spawns P (try_except body handler).
Proof.
  intros Hm Hh ev tr. destruct (Hm ev tr) as (r & l & Hr & Hl).
  unfold try_except. rewrite Hr. destruct r as [a|e].
  - by exists (Ret a), l.
  - destruct (handler e) as [h|] eqn:He.
    + destruct (Hh e h He ev (tr ++ l)) as (r' & l' & Hr' & Hl').
      exists r', (l ++ l'). rewrite Hr', app_assoc, spawns_app. split; [done|].
      by apply Forall_app.
    + by exists (Raise e), l.
Qed.

Lemma only_spawns_try_finally {A} (body : M A) (fin : M unit) :
  only_spawns P body -> only_spawns P fin -> only_spawns P (try_finally body fin).
Proof.
  intros Hm Hf ev tr. destruct (Hm ev tr) as (r & l & Hr & Hl).
  destruct (Hf ev (tr ++ l)) as (r' & l' & Hr' & Hl').
  unfold try_finally. rewrite Hr, Hr'.
  destruct r' as [[]|e]; eexists _, (l ++ l'); rewrite app_assoc, spawns_app;
    (split; [reflexivity|]); by apply Forall_app.
Qed.

Lemma only_spawns_if {A} (b : bool) (m1 m2 : M A) :
  only_spawns P m1 -> only_spawns P m2 -> only_spawns P (if b then m1 else m2).
Proof. by destruct b. Qed.

End OnlySpawns.

Create HintDb spawns discriminated.
#[local] Hint Resolve only_spawns_ret only_spawns_raise only_spawns_sys_exit
  only_spawns_print only_spawns_print_str : spawns.

Ltac only_spawns_handler :=
  let e := fresh "e" in let h := fresh "h" in let He := fresh "He" in
  intros e h He; destruct e; simplify_eq/=.

(** Walks a computation built from the combinators of [Py]. *)
Ltac solve_only_spawns :=
  repeat match goal with
  | |- only_spawns _ (bind (ret _) _) => apply only_spawns_bind_ret
  | |- only_spawns _ (bind _ _) => apply only_spawns_bind; [|intros ?]
  | |- only_spawns _ (try_except _ _) =>
      apply only_spawns_try_except; [|only_spawns_handler]
  | |- only_spawns _ (try_finally _ _) => apply only_spawns_try_finally
  | |- only_spawns _ (subprocess_run _ _) =>
      apply only_spawns_subprocess_run; reflexivity
  | |- only_spawns _ (if _ then _ else _) => apply only_spawns_if
  | |- only_spawns _ (emit _) => apply only_spawns_emit; discriminate
  | |- only_spawns _ _ => solve [auto with spawns]
  end.

(** ** run-tests.py: a single scope *)

Lemma run_test_project_spawns ev tr name path desc :
  exists r l, RunTests.run_test_project name path desc ev tr = (r, tr ++ l)
              /\ spawns l = [RunTests.test_cmd path].
Proof.
  destruct (child ev (spawn_count tr) (RunTests.test_cmd path)) as [rc out|err] eqn:Hc.
  - destruct (run_test_project_exited ev tr name path desc rc out Hc) as (l & Hl & Hs).
    by exists (Ret rc), l.
  - unfold RunTests.run_test_project. rewrite !bind_print.
    unfold try_finally, try_except, bind, subprocess_run, print, emit, ret.
    rewrite !spawn_count_out, Hc.
    destruct err; simpl; rewrite <- !app_assoc; simpl; eexists _, _;
      (split; [reflexivity|done]).
Qed.

Lemma test_configs_lookup (category : string) :
  RunTests.test_configs !! category =
    if decide (category = "stdio") then Some RunTests.stdio_project
    else if decide (category = "integration") then Some RunTests.integration_project
    else if decide (category = "service") then Some RunTests.service_project
    else if decide (category = "unit") then Some RunTests.unit_project
    else None.
Proof.
  unfold RunTests.test_configs. rewrite !lookup_insert, lookup_empty.
  repeat case_decide; congruence.
Qed.

Lemma test_configs_valid (category : string) :
  category ∈ valid_categories <->
  exists p, p ∈ RunTests.test_projects /\ RunTests.test_configs !! category = Some p.
Proof.
  rewrite test_configs_lookup. unfold valid_categories, RunTests.test_projects. split.
  - rewrite !elem_of_cons, elem_of_nil. intros [->|[->|[->|[->|[]]]]]; simpl;
      eexists; (split; [|reflexivity]); set_solver.
  - intros (p & _ & Hp). repeat case_decide; subst; try discriminate; set_solver.
Qed.

(** C3: [run_specific_tests] runs a unit exactly for the four declared
    scope identifiers, which resolve to the four registered units in
    registry order; for any other identifier it spawns nothing, prints
    the unknown category and the list of the valid ones, and returns 1. *)
Theorem run_specific_tests_resolves ev tr category :
  (category ∈ valid_categories <->
     exists p, p ∈ RunTests.test_projects
       /\ spawns (snd (RunTests.run_specific_tests category ev tr)) = spawns tr ++ [unit_cmd p])
  /\ (category ∉ valid_categories ->
      RunTests.run_specific_tests category ev tr =
        (Ret 1, tr ++ [EOut [Lit "❌ Unknown test category: "; FmtStr category];
                       EOut [Lit "   Available categories: unit, service, integration, stdio"]]))
  /\ map (fun c => RunTests.test_configs !! c) valid_categories
     = map Some RunTests.test_projects.
Proof.
  assert (Hunknown : category ∉ valid_categories ->
      RunTests.run_specific_tests category ev tr =
        (Ret 1, tr ++ [EOut [Lit "❌ Unknown test category: "; FmtStr category];
                       EOut [Lit "   Available categories: unit, service, integration, stdio"]])).
  { intros Hn. unfold RunTests.run_specific_tests.
    destruct (RunTests.test_configs !! category) as [p|] eqn:Hp.
    - destruct (decide (p ∈ RunTests.test_projects)) as [Hin|Hnin].
      + exfalso. apply Hn, test_configs_valid. eauto.
      + exfalso. apply Hnin. rewrite test_configs_lookup in Hp.
        unfold RunTests.test_projects. repeat case_decide; simplify_eq; set_solver.
    - unfold print_str. rewrite !bind_print. unfold ret. by rewrite <- app_assoc. }
  split; [|split; [exact Hunknown | by vm_compute]].
  split.
  - intros (p & Hin & Hp)%test_configs_valid. exists p. split; [done|].
    unfold RunTests.run_specific_tests. rewrite Hp. destruct p as [[name path] desc].
    destruct (run_test_project_spawns ev tr name path desc) as (r & l & -> & Hl).
    simpl. by rewrite spawns_app, Hl.
  - intros (p & _ & Hs). destruct (decide (category ∈ valid_categories)) as [|Hn]; [done|].
    rewrite (Hunknown Hn) in Hs. simpl in Hs.
    rewrite spawns_app in Hs. apply app_inv_head in Hs. discriminate.
Qed.

(** ** run-tests.py: the mode that runs *)

Lemma dispatch_run_mode (args : gmap string bool) :
  RunTests.dispatch args = run_mode (selected_mode args).
Proof.
  unfold RunTests.dispatch, selected_mode, priority. simpl.
  repeat (destruct (Argparse.getattr args _); [reflexivity|]). reflexivity.
Qed.

(** C10: the mode that runs is the one of the first flag set in the
    order coverage, unit, service, integration, stdio, fast, watch, and
    "all" exactly when none of them is set; nothing else of the arguments
    counts: the flags after the first one set and the flag [--all] are
    ignored. *)
Theorem dispatch_by_priority (args : gmap string bool) :
  RunTests.dispatch args = run_mode (selected_mode args)
  /\ (selected_mode args = All
      <-> Forall (fun p => Argparse.getattr args (fst p) = false) priority)
  /\ (forall args' : gmap string bool,
        (forall flag, flag ∈ map fst priority ->
                      Argparse.getattr args' flag = Argparse.getattr args flag) ->
        RunTests.dispatch args' = RunTests.dispatch args)
  /\ (forall b, RunTests.dispatch (<["all" := b]> args) = RunTests.dispatch args)
  /\ (forall flag m before after,
        priority = before ++ (flag, m) :: after ->
        Forall (fun p => Argparse.getattr args (fst p) = false) before ->
        Argparse.getattr args flag = true ->
        RunTests.dispatch args = run_mode m).
Proof.
  assert (Hsame : forall args' : gmap string bool,
        (forall flag, flag ∈ map fst priority ->
                      Argparse.getattr args' flag = Argparse.getattr args flag) ->
        RunTests.dispatch args' = RunTests.dispatch args).
  { intros args' H. unfold RunTests.dispatch.
    rewrite !H by (unfold priority; simpl; set_solver). reflexivity. }
  split; [apply dispatch_run_mode|]. split; [|split; [exact Hsame|split]].
  - unfold selected_mode, priority. cbn [List.find fst].
    rewrite !Forall_cons, Forall_nil. cbn [fst].
    repeat (destruct (Argparse.getattr args _); [intuition discriminate|]).
    intuition.
  - intros b. apply Hsame. intros flag Hflag. unfold Argparse.getattr.
    rewrite lookup_insert_ne; [done|].
    intros <-. revert Hflag. apply (bool_decide_unpack _). by vm_compute.
  - intros flag m before after Hp Hbefore Hflag.
    rewrite dispatch_run_mode. unfold selected_mode. rewrite Hp.
    clear Hp. induction Hbefore as [|[f' m'] before Hf' _ IH]; simpl.
    + by rewrite Hflag.
    + simpl in Hf'. by rewrite Hf'.
Qed.

(** ** run-tests.py: from the command line to the mode *)

Lemma print_summary_trace ev tr code :
  exists l, RunTests.print_summary code ev tr = (Ret tt, tr ++ l)
    /\ spawns l = []
    /\ (code = 0 -> EOut [Lit "🎉 ALL TESTS PASSED! ✅"] ∈ l).
Proof.
  unfold RunTests.print_summary, print_str. rewrite !bind_print.
  destruct (Z.eqb_spec code 0) as [->|Hne]; unfold bind, print, emit;
    rewrite <- !app_assoc; simpl; eexists; (split; [reflexivity|]);
    (split; [done|]); intros; [set_solver|done].
Qed.

Lemma run_tests_check_dotnet_ok ev tr out :
  child ev (spawn_count tr) RunTests.version_cmd = Exited 0 out ->
  exists l, RunTests.check_dotnet ev tr = (Ret true, tr ++ l)
            /\ spawns l = [RunTests.version_cmd].
Proof.
  intros Hc. unfold RunTests.check_dotnet, try_except, bind, subprocess_run.
  rewrite Hc. simpl.
  destruct (startswith (strip out) "8."); simpl; unfold print_str, print, emit, ret, bind;
    rewrite <- !app_assoc; simpl; eexists; (split; [reflexivity|done]).
Qed.

(** With well-formed arguments and the toolchain present, [main] comes
    to the choice of the mode having spawned the version query alone. *)
Lemma main_reaches_dispatch ev argv ns out :
  Argparse.parse_args RunTests.parser argv = Argparse.Parsed ns ->
  child ev 0 RunTests.version_cmd = Exited 0 out ->
  exists tr0,
    spawns tr0 = [RunTests.version_cmd]
    /\ RunTests.main argv ev [] =
       bind (RunTests.dispatch ns)
            (fun exit_code =>
               bind (RunTests.print_summary exit_code) (fun _ => sys_exit exit_code))
            ev tr0.
Proof.
  intros Hparse Hc.
  unfold RunTests.main, RunTests.parse_command_line, chdir_script_dir.
  rewrite Hparse, bind_emit, bind_ret_l.
  unfold RunTests.print_banner, print_str. rewrite bind_assoc, !bind_print.
  destruct (run_tests_check_dotnet_ok ev
              ((([] ++ [EChdir]) ++ [EOut [Lit "🧪 Wikipedia MCP Server - Test Runner"]])
               ++ [EOut [Lit (str_repeat "=" 37)]]) out) as (l & Hl & Hs); [exact Hc|].
  erewrite bind_ret by exact Hl. cbn [negb].
  eexists. split; [|reflexivity]. by rewrite spawns_app, Hs.
Qed.

Lemma run_watch_tests_interrupted ev tr :
  child ev (spawn_count tr) RunTests.watch_cmd = Failed SIGINT ->
  RunTests.run_watch_tests ev tr =
    (Ret 0, tr ++ [EOut [Lit "👀 Running tests in watch mode..."];
                   EOut [Lit "   Press Ctrl+C to stop watching"];
                   ESpawn RunTests.watch_cmd;
                   EOut [Lit (nl +:+ "🛑 Watch mode stopped by user")]]).
Proof.
  intros Hc. unfold RunTests.run_watch_tests, print_str. rewrite !bind_print.
  unfold try_except, bind, subprocess_run. rewrite !spawn_count_out, Hc. simpl.
  unfold print, emit, ret. by rewrite <- !app_assoc.
Qed.

Lemma run_tests_main_only_spawns (P : list string -> Prop) argv ns :
  Argparse.parse_args RunTests.parser argv = Argparse.Parsed ns ->
  P RunTests.version_cmd ->
  only_spawns P (RunTests.dispatch ns) ->
  only_spawns P (RunTests.main argv).
Proof.
  intros Hparse Hv Hd.
  unfold RunTests.main, RunTests.parse_command_line, chdir_script_dir. rewrite Hparse.
  unfold RunTests.print_banner, RunTests.check_dotnet, RunTests.print_summary.
  repeat match goal with
  | |- only_spawns _ (RunTests.dispatch _) => exact Hd
  | |- only_spawns _ (subprocess_run RunTests.version_cmd _) =>
      by apply only_spawns_subprocess_run
  | |- _ => progress solve_only_spawns
  end.
Qed.

(** C6: a run in fast mode spawns no build command.  The mode itself
    spawns one command, the aggregate test command with [--no-build],
    and the whole run of [main] spawns nothing that is a build. *)
Theorem fast_mode_never_builds argv ns :
  Argparse.parse_args RunTests.parser argv = Argparse.Parsed ns ->
  selected_mode ns = Fast ->
  only_spawns not_build (RunTests.main argv)
  /\ (forall ev tr, exists r,
        RunTests.dispatch ns ev tr =
          (r, tr ++ [EOut [Lit "🏃 Running tests without building (fast mode)..."];
                     ESpawn RunTests.fast_cmd]))
  /\ is_build_cmd RunTests.fast_cmd = false
  /\ "--no-build" ∈ RunTests.fast_cmd.
Proof.
  intros Hparse Hsel. rewrite dispatch_run_mode, Hsel. simpl run_mode.
  split; [|split; [|split; [reflexivity | set_solver]]].
  - apply (run_tests_main_only_spawns _ _ ns Hparse); [reflexivity|].
    rewrite dispatch_run_mode, Hsel. simpl run_mode.
    unfold RunTests.run_fast_tests. solve_only_spawns.
  - intros ev tr. unfold RunTests.run_fast_tests, print_str. rewrite bind_print.
    unfold try_except, bind, subprocess_run.
    destruct (child ev _ _) as [rc out|err];
      [destruct (Z.eqb_spec rc 0)|destruct err]; simpl; unfold ret;
      rewrite <- !app_assoc; simpl; eexists; reflexivity.
Qed.

Lemma fast_mode_never_builds_witness :
  only_spawns not_build (RunTests.main ["--fast"])
  /\ (forall ev tr, exists r,
        RunTests.dispatch (<["fast" := true]> (Argparse.defaults RunTests.parser)) ev tr =
          (r, tr ++ [EOut [Lit "🏃 Running tests without building (fast mode)..."];
                     ESpawn RunTests.fast_cmd]))
  /\ is_build_cmd RunTests.fast_cmd = false
  /\ "--no-build" ∈ RunTests.fast_cmd.
Proof.
  apply (fast_mode_never_builds ["--fast"]
           (<["fast" := true]> (Argparse.defaults RunTests.parser)));
    vm_compute; reflexivity.
Defined.

(** C7: in watch mode an interrupt of the operator while the watch runs
    is a clean stop: the run prints that the user stopped it, reports
    success in its summary and leaves with exit code 0. *)
Theorem watch_interrupt_is_clean_stop ev argv ns out :
  Argparse.parse_args RunTests.parser argv = Argparse.Parsed ns ->
  selected_mode ns = Watch ->
  child ev 0 RunTests.version_cmd = Exited 0 out ->
  child ev 1 RunTests.watch_cmd = Failed SIGINT ->
  exists tr',
    RunTests.main argv ev [] = (Raise (SystemExit 0), tr')
    /\ process_exit_code (fst (RunTests.main argv ev [])) = Some 0
    /\ spawns tr' = [RunTests.version_cmd; RunTests.watch_cmd]
    /\ EOut [Lit (nl +:+ "🛑 Watch mode stopped by user")] ∈ tr'
    /\ EOut [Lit "🎉 ALL TESTS PASSED! ✅"] ∈ tr'.
Proof.
  intros Hparse Hsel Hv Hw.
  destruct (main_reaches_dispatch ev argv ns out Hparse Hv) as (tr0 & Hs0 & ->).
  rewrite dispatch_run_mode, Hsel. simpl run_mode.
  erewrite bind_ret.
  2:{ apply run_watch_tests_interrupted. unfold spawn_count. by rewrite Hs0. }
  match goal with |- context [bind (RunTests.print_summary 0) _ ev ?t] =>
    destruct (print_summary_trace ev t 0) as (l & Hl & Hs & Hpassed) end.
  erewrite bind_ret by exact Hl. unfold sys_exit, raise.
  eexists. split; [reflexivity|]. split; [reflexivity|]. split.
  - rewrite !spawns_app, Hs0, Hs. reflexivity.
  - split; [|set_solver]. apply elem_of_app. left. set_solver.
Qed.

Lemma watch_interrupt_is_clean_stop_witness :
  exists tr',
    RunTests.main ["--watch"] env_watch_interrupted [] = (Raise (SystemExit 0), tr')
    /\ process_exit_code (fst (RunTests.main ["--watch"] env_watch_interrupted [])) = Some 0
    /\ spawns tr' = [RunTests.version_cmd; RunTests.watch_cmd]
    /\ EOut [Lit (nl +:+ "🛑 Watch mode stopped by user")] ∈ tr'
    /\ EOut [Lit "🎉 ALL TESTS PASSED! ✅"] ∈ tr'.
Proof.
  apply (watch_interrupt_is_clean_stop env_watch_interrupted ["--watch"]
           (<["watch" := true]> (Argparse.defaults RunTests.parser)) "8.0.406");
    vm_compute; reflexivity.
Defined.

(** ** run-tests.py: the command line *)

(** The parser of run-tests.py on some command lines: an abbreviation,
    an ambiguous one, a cluster of short flags, an explicit argument, help
    after an unknown option, an unknown option, the separator. *)
Example parse_abbreviation :
  Argparse.parse_args RunTests.parser ["--cov"]
  = Argparse.Parsed (<["coverage" := true]> (Argparse.defaults RunTests.parser)).
Proof. by vm_compute. Qed.

Example parse_ambiguous :
  Argparse.parse_args RunTests.parser ["--s"]
  = Argparse.UsageError (Argparse.AmbiguousOption "--s" ["--service"; "--stdio"]).
Proof. reflexivity. Qed.

Example parse_cluster :
  Argparse.parse_args RunTests.parser ["-au"]
  = Argparse.Parsed
      (<["unit" := true]> (<["all" := true]> (Argparse.defaults RunTests.parser))).
Proof. by vm_compute. Qed.

Example parse_explicit_argument :
  Argparse.parse_args RunTests.parser ["--unit=1"]
  = Argparse.UsageError (Argparse.IgnoredExplicit (Argparse.StoreTrue "unit") "1").
Proof. reflexivity. Qed.

Example parse_help_after_unknown :
  Argparse.parse_args RunTests.parser ["--foo"; "--help"] = Argparse.HelpExit.
Proof. reflexivity. Qed.

Example parse_unknown :
  Argparse.parse_args RunTests.parser ["--foo"]
  = Argparse.UsageError (Argparse.Unrecognized ["--foo"]).
Proof. reflexivity. Qed.

Example parse_separator :
  Argparse.parse_args RunTests.parser ["--"; "--unit"]
  = Argparse.UsageError (Argparse.Unrecognized ["--"; "--unit"]).
Proof. reflexivity. Qed.

Example unrecognized_arguments :
  map unrecognized ["--foo"; "-x"; "foo"; "-5"; "--cov"; "--unit"; "-u"]
  = [true; true; true; true; false; false; false].
Proof. reflexivity. Qed.

Lemma spelling_parse (s dest : string) :
  flag_of s = Some dest ->
  Argparse.parse_optional RunTests.parser s
    = inr (Some (Some (Argparse.StoreTrue dest), s, None))
  /\ String.eqb s "--" = false.
Proof.
  unfold flag_of, spellings. cbn [List.find fst].
  repeat match goal with
  | |- context [String.eqb ?a s] =>
      destruct (String.eqb_spec a s) as [<-|_];
      [cbn [fmap option_fmap option_map snd]; intros [= <-]; by vm_compute|]
  end.
  discriminate.
Qed.

Lemma unrecognized_not_separator (arg : string) :
  unrecognized arg = true -> String.eqb arg "--" = false.
Proof. destruct (String.eqb_spec arg "--") as [->|]; [by vm_compute | done]. Qed.

(** The first pass over arguments of which each is a spelling, but for
    one unrecognized argument in their midst. *)
Lemma classify_spellings (argv : list string) :
  Forall is_spelling argv ->
  Argparse.classify_args RunTests.parser argv
    = inr (map (fun s => (s, Some (Argparse.StoreTrue <$> flag_of s, s, None))) argv).
Proof.
  induction 1 as [|s argv [dest Hs] _ IH]; [done|].
  destruct (spelling_parse s dest Hs) as [Hp Hsep].
  simpl. by rewrite Hsep, Hp, IH, Hs.
Qed.

Lemma classify_spellings_around (argv rest : list string) (arg : string) :
  Forall is_spelling argv -> unrecognized arg = true -> Forall is_spelling rest ->
  exists tok,
    Argparse.classify_args RunTests.parser (argv ++ arg :: rest)
    = inr (map (fun s => (s, Some (Argparse.StoreTrue <$> flag_of s, s, None))) argv
           ++ (arg, tok)
           :: map (fun s => (s, Some (Argparse.StoreTrue <$> flag_of s, s, None))) rest)
    /\ forall ns extras toks,
         Argparse.consume RunTests.parser ((arg, tok) :: toks) ns extras
         = Argparse.consume RunTests.parser toks ns (extras ++ [arg]).
Proof.
  intros Hargv Harg Hrest. pose proof (unrecognized_not_separator arg Harg) as Hsep.
  pose proof (classify_spellings rest Hrest) as Hcr.
  unfold unrecognized in Harg.
  destruct (Argparse.parse_optional RunTests.parser arg) as [|tok] eqn:Hp; [done|].
  exists tok. split.
  - induction Hargv as [|s argv [dest Hs] _ IH]; simpl.
    + by rewrite Hsep, Hp, Hcr.
    + destruct (spelling_parse s dest Hs) as [Hps Hseps].
      by rewrite Hseps, Hps, IH, Hs.
  - intros ns extras toks. by destruct tok as [[[[a|] os] ea]|].
Qed.

(** The second pass over spellings sets their flags and leaves the
    extras as they are. *)
Lemma consume_spellings (argv : list string) : forall toks ns extras,
  Forall is_spelling argv ->
  Argparse.consume RunTests.parser
    (map (fun s => (s, Some (Argparse.StoreTrue <$> flag_of s, s, None))) argv ++ toks)
    ns extras
  = Argparse.consume RunTests.parser toks (set_flags argv ns) extras.
Proof.
  induction argv as [|s argv IH]; intros toks ns extras Hargv; [done|].
  apply Forall_cons in Hargv as [[dest Hs] Hargv].
  simpl. rewrite Hs. simpl. by rewrite IH.
Qed.

Lemma spelled_cons (s : string) (argv : list string) (dest : string) :
  spelled (s :: argv) dest <-> flag_of s = Some dest \/ spelled argv dest.
Proof.
  unfold spelled. split.
  - intros (s' & [->|Hin]%elem_of_cons & Hs'); [by left | right; eauto].
  - intros [Hs|(s' & Hin & Hs')].
    + exists s. split; [apply elem_of_cons; by left | done].
    + exists s'. split; [apply elem_of_cons; by right | done].
Qed.

Lemma getattr_set_flags (argv : list string) : forall (ns : gmap string bool) dest,
  Argparse.getattr (set_flags argv ns) dest = true
  <-> Argparse.getattr ns dest = true \/ spelled argv dest.
Proof.
  induction argv as [|s argv IH]; intros ns dest.
  - simpl. split; [by left|]. intros [H|(s & Hs%elem_of_nil & _)]; done.
  - simpl. rewrite IH, spelled_cons.
    destruct (flag_of s) as [d|] eqn:Hs.
    + unfold Argparse.getattr. destruct (decide (d = dest)) as [->|Hne].
      * rewrite lookup_insert_eq. simpl. split; [intros _|intros _; by left].
        right. by left.
      * rewrite lookup_insert_ne by done.
        split; [intros [H|H]; [by left | by right; right]|].
        intros [H|[H|H]]; [by left | congruence | by right].
    + split; [intros [H|H]; [by left | by right; right]|].
      intros [H|[H|H]]; [by left | congruence | by right].
Qed.

Lemma getattr_defaults (dest : string) :
  Argparse.getattr (Argparse.defaults RunTests.parser) dest = false.
Proof.
  unfold Argparse.getattr.
  destruct (Argparse.defaults RunTests.parser !! dest) as [b|] eqn:Hb; [|done].
  assert (Hall : map_Forall (fun _ b => b = false) (Argparse.defaults RunTests.parser)).
  { apply (bool_decide_unpack _). by vm_compute. }
  simpl. by apply (Hall dest b).
Qed.

(** C9: the mode flags are independent switches, not exclusive ones.  Any number
    of them, in their long or short spellings, is accepted and each one
    spelled is set in the namespace; with an unrecognized argument among
    them the parser reports a usage error and [main] leaves with status 2
    before it has run anything. *)
Theorem mode_flags_are_independent (argv : list string) :
  Forall is_spelling argv ->
  Argparse.parse_args RunTests.parser argv
    = Argparse.Parsed (set_flags argv (Argparse.defaults RunTests.parser))
  /\ (forall dest,
        Argparse.getattr (set_flags argv (Argparse.defaults RunTests.parser)) dest = true
        <-> spelled argv dest)
  /\ (forall arg rest ev,
        unrecognized arg = true -> Forall is_spelling rest ->
        Argparse.parse_args RunTests.parser (argv ++ arg :: rest)
          = Argparse.UsageError (Argparse.Unrecognized [arg])
        /\ RunTests.main (argv ++ arg :: rest) ev [] = (Raise (SystemExit 2), [EChdir; EUsage])).
Proof.
  intros Hargv. split; [|split].
  - unfold Argparse.parse_args. rewrite (classify_spellings argv Hargv).
    rewrite <- (app_nil_r (map _ argv)). by rewrite consume_spellings.
  - intros dest. rewrite getattr_set_flags, getattr_defaults.
    split; [by intros [|] | by right].
  - intros arg rest ev Harg Hrest.
    assert (Hparse : Argparse.parse_args RunTests.parser (argv ++ arg :: rest)
                     = Argparse.UsageError (Argparse.Unrecognized [arg])).
    { destruct (classify_spellings_around argv rest arg Hargv Harg Hrest)
        as (tok & Hc & Htok).
      unfold Argparse.parse_args. rewrite Hc, consume_spellings, Htok by done.
      rewrite <- (app_nil_r (map _ rest)). by rewrite consume_spellings. }
    split; [exact Hparse|].
    unfold RunTests.main, RunTests.parse_command_line, chdir_script_dir.
    rewrite Hparse. reflexivity.
Qed.

Lemma mode_flags_are_independent_witness :
  Argparse.parse_args RunTests.parser ["--unit"; "-f"]
    = Argparse.Parsed (set_flags ["--unit"; "-f"] (Argparse.defaults RunTests.parser))
  /\ (forall dest,
        Argparse.getattr (set_flags ["--unit"; "-f"] (Argparse.defaults RunTests.parser)) dest
          = true
        <-> spelled ["--unit"; "-f"] dest)
  /\ (forall arg rest ev,
        unrecognized arg = true -> Forall is_spelling rest ->
        Argparse.parse_args RunTests.parser (["--unit"; "-f"] ++ arg :: rest)
          = Argparse.UsageError (Argparse.Unrecognized [arg])
        /\ RunTests.main (["--unit"; "-f"] ++ arg :: rest) ev []
           = (Raise (SystemExit 2), [EChdir; EUsage])).
Proof.
  apply (mode_flags_are_independent ["--unit"; "-f"]).
  repeat constructor; eexists; reflexivity.
Defined.

(** C9, on exclusiveness: two mode flags together are no usage error.
    With [--unit --fast] the parser sets both flags, the unit tests are
    run, and when they pass the run leaves with exit code 0. *)
Lemma two_mode_flags_are_accepted :
  Argparse.parse_args RunTests.parser ["--unit"; "--fast"]
    = Argparse.Parsed
        (<["fast" := true]> (<["unit" := true]> (Argparse.defaults RunTests.parser)))
  /\ fst (RunTests.main ["--unit"; "--fast"] env_unit_passes []) = Raise (SystemExit 0)
  /\ spawns (snd (RunTests.main ["--unit"; "--fast"] env_unit_passes []))
     = [RunTests.version_cmd; unit_cmd RunTests.unit_project].
Proof. repeat split; vm_compute; reflexivity. Qed.

(** ** start-server.py: the steps one by one *)

Lemma steps_app (tr1 tr2 : trace) : steps (tr1 ++ tr2) = steps tr1 ++ steps tr2.
Proof. unfold steps. apply omap_app. Qed.

Lemma start_server_check_dotnet ev tr :
  exists r l, StartServer.check_dotnet ev tr = (r, tr ++ l)
    /\ spawns l = [StartServer.version_cmd]
    /\ steps l = [CheckPrerequisites]
    /\ (forall out, child ev (spawn_count tr) StartServer.version_cmd = Exited 0 out ->
                    r = Ret true).
Proof.
  unfold StartServer.check_dotnet, try_except, bind, subprocess_run.
  destruct (child ev (spawn_count tr) StartServer.version_cmd) as [rc out|err].
  - destruct (Z.eqb_spec rc 0) as [->|Hne]; simpl.
    + destruct (startswith (strip out) "8."); simpl;
        unfold print_str, print, emit, ret, bind; rewrite <- !app_assoc; simpl;
        eexists _, _; (split; [reflexivity|]); by repeat split.
    + unfold print_str, print, emit, ret, bind. rewrite <- !app_assoc. simpl.
      eexists _, _. split; [reflexivity|]. repeat split. intros out' [=]. done.
  - destruct err; simpl; unfold print_str, print, emit, ret, bind;
      rewrite <- ?app_assoc; simpl; eexists _, _; (split; [reflexivity|]);
      repeat split; discriminate.
Qed.

Lemma check_project_trace ev tr :
  exists l, StartServer.check_project ev tr
            = (Ret (path_exists ev StartServer.project_path), tr ++ l)
    /\ spawns l = [] /\ steps l = [CheckProjectExists].
Proof.
  unfold StartServer.check_project, bind, os_path_exists.
  destruct (path_exists ev StartServer.project_path); simpl;
    unfold print_str, print, emit, ret, bind; rewrite <- ?app_assoc; simpl;
    eexists; (split; [reflexivity|]); by split.
Qed.

(** Whatever happens to the kill command, nothing escapes the bare
    [except:], and the settle delay follows. *)
Lemma kill_existing_processes_trace ev tr :
  StartServer.kill_existing_processes ev tr =
    (Ret tt, tr ++ [EOut [Lit "🧹 Cleaning up any existing server instances..."];
                    ESpawn (kill_cmd_on (platform_system ev));
                    ESleep 2]).
Proof.
  unfold StartServer.kill_existing_processes, print_str, kill_cmd_on.
  rewrite bind_print. unfold bind at 1. unfold get_platform_system.
  destruct (String.eqb (platform_system ev) "Windows");
    unfold try_except, bind, subprocess_run; simpl;
    destruct (child ev _ _) as [rc out|err]; simpl;
    unfold time_sleep, emit, ret; by rewrite <- !app_assoc.
Qed.

Lemma build_project_general ev tr :
  exists r l, StartServer.build_project ev tr = (r, tr ++ l)
    /\ spawns l = [StartServer.build_cmd]
    /\ steps l = [Build]
    /\ (forall out, child ev (spawn_count tr) StartServer.build_cmd = Exited 0 out ->
                    r = Ret true).
Proof.
  unfold StartServer.build_project, print_str. rewrite bind_print.
  unfold try_except, bind, subprocess_run. rewrite spawn_count_out.
  destruct (child ev (spawn_count tr) StartServer.build_cmd) as [rc out|err].
  - destruct (Z.eqb_spec rc 0) as [->|Hne]; simpl;
      unfold print_str, print, emit, ret, bind; rewrite <- !app_assoc; simpl;
      eexists _, _; (split; [reflexivity|]); repeat split.
    intros out' [=]. done.
  - destruct err; simpl; rewrite <- ?app_assoc; simpl; eexists _, _;
      (split; [reflexivity|]); repeat split; discriminate.
Qed.

Lemma print_server_info_trace ev tr :
  exists l, StartServer.print_server_info ev tr = (Ret tt, tr ++ l)
    /\ spawns l = [] /\ steps l = [PrintEndpoints].
Proof.
  unfold StartServer.print_server_info, print_str. rewrite !bind_print.
  unfold print, emit. rewrite <- !app_assoc. simpl.
  eexists. split; [reflexivity|]. split; [done|]. by vm_compute.
Qed.

Lemma start_server_general ev tr :
  exists r l, StartServer.start_server ev tr = (r, tr ++ l)
    /\ spawns l = [StartServer.run_cmd] /\ steps l = [RunBlocking].
Proof.
  unfold StartServer.start_server, try_except, bind, subprocess_run.
  destruct (child ev (spawn_count tr) StartServer.run_cmd) as [rc out|err].
  - destruct (Z.eqb_spec rc 0) as [->|Hne]; simpl;
      unfold print_str, print, emit, ret; rewrite <- ?app_assoc; simpl;
      eexists _, _; (split; [reflexivity|]); by split.
  - destruct err; simpl; unfold print_str, print, emit, ret; rewrite <- ?app_assoc; simpl;
      eexists _, _; (split; [reflexivity|]); by split.
Qed.

Lemma start_server_interrupted ev tr :
  child ev (spawn_count tr) StartServer.run_cmd = Failed SIGINT ->
  StartServer.start_server ev tr =
    (Ret tt, tr ++ [ESpawn StartServer.run_cmd;
                    EOut [Lit (nl +:+ "🛑 Server stopped by user")]]).
Proof.
  intros Hc. unfold StartServer.start_server, try_except, bind, subprocess_run.
  rewrite Hc. simpl. unfold print_str, print, emit. by rewrite <- app_assoc.
Qed.

Lemma start_server_exited ev tr rc out :
  child ev (spawn_count tr) StartServer.run_cmd = Exited rc out -> rc <> 0 ->
  StartServer.start_server ev tr =
    (Ret tt, tr ++ [ESpawn StartServer.run_cmd;
                    EOut [Lit "❌ Server failed to start: ";
                          FmtExn (CalledProcessError StartServer.run_cmd rc)]]).
Proof.
  intros Hc Hrc. unfold StartServer.start_server, try_except, bind, subprocess_run.
  rewrite Hc. destruct (Z.eqb_spec rc 0) as [|_]; [done|]. simpl.
  unfold print, emit. by rewrite <- app_assoc.
Qed.

(** ** start-server.py: the flow *)

Lemma step_of_kill (system : string) :
  step_of (ESpawn (kill_cmd_on system)) = Some KillStaleInstances.
Proof. unfold kill_cmd_on. by destruct (String.eqb system "Windows"). Qed.

Lemma steps_kill (system : string) :
  steps [EOut [Lit "🧹 Cleaning up any existing server instances..."];
         ESpawn (kill_cmd_on system); ESleep 2] = [KillStaleInstances].
Proof.
  unfold steps. cbn [omap list_omap]. rewrite step_of_kill. reflexivity.
Qed.

Lemma main_start ev :
  StartServer.main ev [] =
    bind StartServer.check_dotnet
      (fun ok =>
         if negb ok then sys_exit 1
         else
           bind StartServer.check_project
             (fun found =>
                if negb found then sys_exit 1
                else
                  bind StartServer.kill_existing_processes
                    (fun _ =>
                       bind StartServer.build_project
                         (fun built =>
                            if negb built then sys_exit 1
                            else bind StartServer.print_server_info
                                   (fun _ => StartServer.start_server)))))
      ev start_trace.
Proof.
  unfold StartServer.main, chdir_script_dir, StartServer.print_banner, print_str.
  by rewrite bind_emit, bind_assoc, !bind_print.
Qed.

(** With the toolchain and the project file present, [main] comes to
    the build having spawned the version query and the kill command. *)
Lemma main_reaches_build ev out :
  child ev 0 StartServer.version_cmd = Exited 0 out ->
  path_exists ev StartServer.project_path = true ->
  exists tr0,
    spawns tr0 = [StartServer.version_cmd; kill_cmd_on (platform_system ev)]
    /\ steps tr0 = [CheckPrerequisites; CheckProjectExists; KillStaleInstances]
    /\ StartServer.main ev [] =
       bind StartServer.build_project
         (fun built =>
            if negb built then sys_exit 1
            else bind StartServer.print_server_info (fun _ => StartServer.start_server))
         ev tr0.
Proof.
  intros Hv Hp. rewrite main_start.
  destruct (start_server_check_dotnet ev start_trace) as (r1 & l1 & H1 & Hs1 & Ht1 & Hok).
  rewrite (Hok out Hv) in H1. erewrite bind_ret by exact H1. cbn [negb].
  destruct (check_project_trace ev (start_trace ++ l1)) as (l2 & H2 & Hs2 & Ht2).
  rewrite Hp in H2. erewrite bind_ret by exact H2. cbn [negb].
  erewrite bind_ret by apply kill_existing_processes_trace.
  eexists. split; [|split; [|reflexivity]].
  - rewrite !spawns_app, Hs1, Hs2. reflexivity.
  - rewrite !steps_app, Ht1, Ht2, steps_kill. reflexivity.
Qed.

Lemma main_reaches_run ev out o2 :
  child ev 0 StartServer.version_cmd = Exited 0 out ->
  path_exists ev StartServer.project_path = true ->
  child ev 2 StartServer.build_cmd = Exited 0 o2 ->
  exists tr0,
    spawn_count tr0 = 3%nat
    /\ steps tr0 = [CheckPrerequisites; CheckProjectExists; KillStaleInstances; Build;
                    PrintEndpoints]
    /\ StartServer.main ev [] = StartServer.start_server ev tr0.
Proof.
  intros Hv Hp Hb.
  destruct (main_reaches_build ev out Hv Hp) as (tr0 & Hs0 & Ht0 & ->).
  destruct (build_project_general ev tr0) as (r & l & Hl & Hs & Ht & Hok).
  rewrite (Hok o2) in Hl by (unfold spawn_count; by rewrite Hs0).
  erewrite bind_ret by exact Hl. cbn [negb].
  destruct (print_server_info_trace ev (tr0 ++ l)) as (l' & Hl' & Hs' & Ht').
  erewrite bind_ret by exact Hl'.
  eexists. split; [|split; [|reflexivity]].
  - unfold spawn_count. by rewrite !spawns_app, Hs0, Hs, Hs'.
  - by rewrite !steps_app, Ht0, Ht, Ht'.
Qed.

Lemma main_project_missing ev out :
  child ev 0 StartServer.version_cmd = Exited 0 out ->
  path_exists ev StartServer.project_path = false ->
  exists tr',
    StartServer.main ev [] = (Raise (SystemExit 1), tr')
    /\ steps tr' = [CheckPrerequisites; CheckProjectExists]
    /\ spawns tr' = [StartServer.version_cmd].
Proof.
  intros Hv Hp. rewrite main_start.
  destruct (start_server_check_dotnet ev start_trace) as (r1 & l1 & H1 & Hs1 & Ht1 & Hok).
  rewrite (Hok out Hv) in H1. erewrite bind_ret by exact H1. cbn [negb].
  destruct (check_project_trace ev (start_trace ++ l1)) as (l2 & H2 & Hs2 & Ht2).
  rewrite Hp in H2. erewrite bind_ret by exact H2. cbn [negb].
  eexists. split; [reflexivity|]. split.
  - rewrite !steps_app, Ht1, Ht2. reflexivity.
  - rewrite !spawns_app, Hs1, Hs2. reflexivity.
Qed.

(** Every run of [main] goes through the steps in their order, as far
    as it gets. *)
Lemma main_steps_prefix ev : steps (snd (StartServer.main ev [])) `prefix_of` lifecycle.
Proof.
  rewrite main_start.
  destruct (start_server_check_dotnet ev start_trace) as (r1 & l1 & H1 & _ & Ht1 & _).
  unfold bind at 1. rewrite H1.
  destruct r1 as [[|]|e]; cbn [negb snd sys_exit raise];
    [|rewrite steps_app, Ht1; by eexists..].
  destruct (check_project_trace ev (start_trace ++ l1)) as (l2 & H2 & _ & Ht2).
  unfold bind at 1. rewrite H2.
  destruct (path_exists ev StartServer.project_path); cbn [negb snd sys_exit raise];
    [|rewrite !steps_app, Ht1, Ht2; by eexists].
  erewrite bind_ret by apply kill_existing_processes_trace.
  match goal with |- context [bind StartServer.build_project _ ev ?t] =>
    destruct (build_project_general ev t) as (r3 & l3 & H3 & _ & Ht3 & _) end.
  unfold bind at 1. rewrite H3.
  destruct r3 as [[|]|e]; cbn [negb snd sys_exit raise];
    [|rewrite !steps_app, Ht1, Ht2, steps_kill, Ht3; by eexists..].
  match goal with |- context [bind StartServer.print_server_info _ ev ?t] =>
    destruct (print_server_info_trace ev t) as (l4 & H4 & _ & Ht4) end.
  erewrite bind_ret by exact H4.
  match goal with |- context [StartServer.start_server ev ?t] =>
    destruct (start_server_general ev t) as (r5 & l5 & H5 & _ & Ht5) end.
  rewrite H5. cbn [snd].
  rewrite !steps_app, Ht1, Ht2, steps_kill, Ht3, Ht4, Ht5. by exists [].
Qed.

(** C4: the start-up flow runs its steps in the order CheckPrerequisites,
    CheckProjectExists, KillStaleInstances, Build, PrintEndpoints,
    RunBlocking: the steps of any run are a prefix of this list and the
    steps of a run in which the checks and the build succeed are the
    whole list.  When the project file is missing the flow halts with
    exit status 1 after CheckProjectExists: neither the kill command nor
    the build is spawned. *)
Theorem lifecycle_order ev :
  steps (snd (StartServer.main ev [])) `prefix_of` lifecycle
  /\ (forall out o2,
        child ev 0 StartServer.version_cmd = Exited 0 out ->
        path_exists ev StartServer.project_path = true ->
        child ev 2 StartServer.build_cmd = Exited 0 o2 ->
        steps (snd (StartServer.main ev [])) = lifecycle)
  /\ (forall out,
        child ev 0 StartServer.version_cmd = Exited 0 out ->
        path_exists ev StartServer.project_path = false ->
        exists tr',
          StartServer.main ev [] = (Raise (SystemExit 1), tr')
          /\ process_exit_code (fst (StartServer.main ev [])) = Some 1
          /\ steps tr' = [CheckPrerequisites; CheckProjectExists]
          /\ spawns tr' = [StartServer.version_cmd]).
Proof.
  split; [apply main_steps_prefix|]. split.
  - intros out o2 Hv Hp Hb.
    destruct (main_reaches_run ev out o2 Hv Hp Hb) as (tr0 & _ & Ht0 & ->).
    destruct (start_server_general ev tr0) as (r & l & -> & _ & Ht).
    cbn [snd]. by rewrite steps_app, Ht0, Ht.
  - intros out Hv Hp.
    destruct (main_project_missing ev out Hv Hp) as (tr' & Hm & Ht & Hs).
    exists tr'. by rewrite Hm.
Qed.

Lemma lifecycle_order_witness :
  exists tr',
    StartServer.main env_project_missing [] = (Raise (SystemExit 1), tr')
    /\ process_exit_code (fst (StartServer.main env_project_missing [])) = Some 1
    /\ steps tr' = [CheckPrerequisites; CheckProjectExists]
    /\ spawns tr' = [StartServer.version_cmd].
Proof.
  destruct (lifecycle_order env_project_missing) as (_ & _ & Hmissing).
  apply (Hmissing "8.0.406"); reflexivity.
Defined.

(** C5: while the server runs, an interrupt of the operator
    is a clean stop, reported as such, and the script ends with exit
    status 0.  When the server leaves on its own with a non-zero return
    code, the script prints that the server failed to start, with the
    exception that carries the command and the return code, and then
    ends normally as well: its exit status is 0, not the server's code. *)
Theorem run_blocking_outcomes ev out o2 :
  child ev 0 StartServer.version_cmd = Exited 0 out ->
  path_exists ev StartServer.project_path = true ->
  child ev 2 StartServer.build_cmd = Exited 0 o2 ->
  (child ev 3 StartServer.run_cmd = Failed SIGINT ->
   exists tr0,
     StartServer.main ev [] =
       (Ret tt, tr0 ++ [ESpawn StartServer.run_cmd;
                        EOut [Lit (nl +:+ "🛑 Server stopped by user")]])
     /\ process_exit_code (fst (StartServer.main ev [])) = Some 0)
  /\ (forall rc o3,
        child ev 3 StartServer.run_cmd = Exited rc o3 -> rc <> 0 ->
        exists tr0,
          StartServer.main ev [] =
            (Ret tt, tr0 ++ [ESpawn StartServer.run_cmd;
                             EOut [Lit "❌ Server failed to start: ";
                                   FmtExn (CalledProcessError StartServer.run_cmd rc)]])
          /\ process_exit_code (fst (StartServer.main ev [])) = Some 0).
Proof.
  intros Hv Hp Hb.
  destruct (main_reaches_run ev out o2 Hv Hp Hb) as (tr0 & Hn & _ & ->).
  split.
  - intros Hr. exists tr0. rewrite start_server_interrupted by (by rewrite Hn). done.
  - intros rc o3 Hr Hrc. exists tr0.
    rewrite (start_server_exited ev tr0 rc o3) by (by rewrite ?Hn). done.
Qed.

Lemma run_blocking_outcomes_witness :
  exists tr0,
    StartServer.main env_server_interrupted [] =
      (Ret tt, tr0 ++ [ESpawn StartServer.run_cmd;
                       EOut [Lit (nl +:+ "🛑 Server stopped by user")]])
    /\ process_exit_code (fst (StartServer.main env_server_interrupted [])) = Some 0.
Proof.
  destruct (run_blocking_outcomes env_server_interrupted "8.0.406" "") as [Hint _];
    [reflexivity..|].
  apply Hint. reflexivity.
Defined.

(** C5, on the exit status: when the server leaves on its own with
    return code 3, the script reports the failure and its own exit status
    is 0, not 3. *)
Lemma server_exit_code_is_not_surfaced :
  child env_server_exits_3 3 StartServer.run_cmd = Exited 3 ""
  /\ fst (StartServer.main env_server_exits_3 []) = Ret tt
  /\ process_exit_code (fst (StartServer.main env_server_exits_3 [])) = Some 0
  /\ process_exit_code (fst (StartServer.main env_server_exits_3 [])) <> Some 3.
Proof. repeat split; by vm_compute. Qed.

(** C8: the kill step spawns one command chosen by the host system,
    [taskkill] by the image name of the toolchain on Windows and [pkill]
    by the pattern of the server's command line elsewhere; whatever
    becomes of that command the step returns normally, the settle delay
    of 2 seconds is its last effect, and the build that follows in [main]
    is spawned after the delay. *)
Theorem kill_is_best_effort ev tr :
  StartServer.kill_existing_processes ev tr =
    (Ret tt, tr ++ [EOut [Lit "🧹 Cleaning up any existing server instances..."];
                    ESpawn (kill_cmd_on (platform_system ev));
                    ESleep 2])
  /\ kill_cmd_on "Windows" = ["taskkill"; "/f"; "/im"; "dotnet.exe"]
  /\ (forall system, system <> "Windows" ->
        kill_cmd_on system = ["pkill"; "-f"; "dotnet.*WikipediaMcpServer"])
  /\ (forall B (k : unit -> M B),
        bind StartServer.kill_existing_processes k ev tr =
          k tt ev (tr ++ [EOut [Lit "🧹 Cleaning up any existing server instances..."];
                          ESpawn (kill_cmd_on (platform_system ev));
                          ESleep 2]))
  /\ (exists r post,
        bind StartServer.kill_existing_processes (fun _ => StartServer.build_project) ev tr =
          (r, tr ++ [EOut [Lit "🧹 Cleaning up any existing server instances..."];
                     ESpawn (kill_cmd_on (platform_system ev));
                     ESleep 2;
                     EOut [Lit "🔨 Building the project..."];
                     ESpawn StartServer.build_cmd] ++ post)).
Proof.
  split; [apply kill_existing_processes_trace|]. split; [reflexivity|]. split.
  { intros system Hs. unfold kill_cmd_on.
    by destruct (String.eqb_spec system "Windows"). }
  split.
  - intros B k. by erewrite bind_ret by apply kill_existing_processes_trace.
  - erewrite bind_ret by apply kill_existing_processes_trace.
    unfold StartServer.build_project, print_str. rewrite bind_print.
    unfold try_except, bind, subprocess_run.
    destruct (child ev _ _) as [rc out|err];
      [destruct (Z.eqb_spec rc 0)|destruct err]; simpl;
      unfold print_str, print, emit, ret; rewrite <- !app_assoc; simpl;
      eexists _, _; reflexivity.
Qed.

(** * Further properties *)

(** ** Computations confined to some events and exceptions *)

Section Confined.

Variable Qe : event -> Prop.
Variable Qx : exn -> Prop.

Lemma confined_ret {A} (a : A) : confined Qe Qx (ret a).
Proof. intros ev tr. exists (Ret a), []. rewrite app_nil_r. by repeat split. Qed.

Lemma confined_raise {A} (e : exn) : Qx e -> confined Qe Qx (@raise A e).
Proof.
  intros He ev tr. exists (Raise e), []. rewrite app_nil_r.
  repeat split; [done|]. by intros e' [= <-].
Qed.

Lemma confined_emit (e : event) : Qe e -> confined Qe Qx (emit e).
Proof. intros He ev tr. exists (Ret tt), [e]. repeat split; [by constructor | done]. Qed.

Lemma confined_os_path_exists (path : string) :
  Qe (EExists path) -> confined Qe Qx (os_path_exists path).
Proof.
  intros He ev tr. exists (Ret (path_exists ev path)), [EExists path].
  repeat split; [by constructor | done].
Qed.

Lemma confined_get_platform_system : confined Qe Qx get_platform_system.
Proof.
  intros ev tr. exists (Ret (platform_system ev)), []. unfold get_platform_system.
  rewrite app_nil_r. by repeat split.
Qed.

Lemma confined_subprocess_run (cmd : list string) (check : bool) :
  Qe (ESpawn cmd) ->
  (forall rc, Qx (CalledProcessError cmd rc)) ->
  (forall err, Qx (exn_of err)) ->
  confined Qe Qx (subprocess_run cmd check).
Proof.
  intros He Hrc Herr ev tr. unfold subprocess_run.
  destruct (child ev (spawn_count tr) cmd) as [rc out|err];
    [destruct (check && negb (rc =? 0))|]; eexists _, [ESpawn cmd];
    (split; [reflexivity|]); (split; [by constructor|]); intros e [=]; by subst.
Qed.

Lemma confined_bind {A B} (m : M A) (k : A -> M B) :
  confined Qe Qx m -> (forall a, confined Qe Qx (k a)) -> confined Qe Qx (bind m k).
Proof.
  intros Hm Hk ev tr. destruct (Hm ev tr) as (r & l & Hr & Hl & Hx).
  unfold bind. rewrite Hr. destruct r as [a|e].
  - destruct (Hk a ev (tr ++ l)) as (r' & l' & Hr' & Hl' & Hx').
    exists r', (l ++ l'). rewrite Hr', app_assoc. repeat split; [|done].
    by apply Forall_app.
  - exists (Raise e), l. repeat split; [done|]. intros e' [= <-]. by apply Hx.
Qed.

Lemma confined_bind_ret {A B} (a : A) (k : A -> M B) :
  confined Qe Qx (k a) -> confined Qe Qx (bind (ret a) k).
Proof. intros Hk ev tr. apply Hk. Qed.

Lemma confined_try_except {A} (body : M A) (handler : exn -> option (M A)) :
  confined Qe Qx body ->
  (forall e h, handler e = Some h -> confined Qe Qx h) ->
  confined Qe Qx (try_except body handler).
Proof.
  intros Hm Hh ev tr. destruct (Hm ev tr) as (r & l & Hr & Hl & Hx).
  unfold try_except. rewrite Hr. destruct r as [a|e].
  - exists (Ret a), l. by repeat split.
  - destruct (handler e) as [h|] eqn:He.
    + destruct (Hh e h He ev (tr ++ l)) as (r' & l' & Hr' & Hl' & Hx').
      exists r', (l ++ l'). rewrite Hr', app_assoc. repeat split; [|done].
      by apply Forall_app.
    + exists (Raise e), l. repeat split; [done|]. intros e' [= <-]. by apply Hx.
Qed.

Lemma confined_try_finally {A} (body : M A) (fin : M unit) :
  confined Qe Qx body -> confined Qe Qx fin -> confined Qe Qx (try_finally body fin).
Proof.
  intros Hm Hf ev tr. destruct (Hm ev tr) as (r & l & Hr & Hl & Hx).
  destruct (Hf ev (tr ++ l)) as (r' & l' & Hr' & Hl' & Hx').
  unfold try_finally. rewrite Hr, Hr'.
  destruct r' as [[]|e]; eexists _, (l ++ l'); rewrite app_assoc;
    (split; [reflexivity|]); (split; [by apply Forall_app|]); [done|].
  intros e' [= <-]. by apply Hx'.
Qed.

Lemma confined_if {A} (b : bool) (m1 m2 : M A) :
  confined Qe Qx m1 -> confined Qe Qx m2 -> confined Qe Qx (if b then m1 else m2).
Proof. by destruct b. Qed.

Lemma confined_for_each {A S} (xs : list A) (body : A -> S -> M S) :
  (forall x acc, confined Qe Qx (body x acc)) ->
  forall acc, confined Qe Qx (for_each xs body acc).
Proof.
  intros Hbody. induction xs as [|x xs IH]; intros acc; simpl.
  - apply confined_ret.
  - apply confined_bind; [apply Hbody | apply IH].
Qed.

(** A confined computation followed by a continuation: it raises and
    the continuation never runs, or the continuation takes over. *)
Lemma confined_bind_cases {A B} (m : M A) (k : A -> M B) ev tr :
  confined Qe Qx m ->
  (exists e l, bind m k ev tr = (Raise e, tr ++ l) /\ Forall Qe l /\ Qx e)
  \/ (exists a l, bind m k ev tr = k a ev (tr ++ l) /\ Forall Qe l).
Proof.
  intros Hm. destruct (Hm ev tr) as (r & l & Hr & Hl & Hx).
  unfold bind. rewrite Hr. destruct r as [a|e]; [right|left]; eauto 6.
Qed.

End Confined.

(** Side conditions on single events and exceptions. *)
Ltac confined_side :=
  first
    [ exact I
    | discriminate
    | split; discriminate
    | let c := fresh "c" in intros c [=]; subst; reflexivity
    | let err := fresh "err" in let c := fresh "c" in intros err c; destruct err; discriminate
    | let rc := fresh "rc" in let c := fresh "c" in intros rc c; discriminate
    | intros [] ; exact I
    | intros; exact I ].

Ltac confined_handler :=
  let e := fresh "e" in let h := fresh "h" in let He := fresh "He" in
  intros e h He; destruct e; simplify_eq/=.

(** Walks a computation built from the combinators of [Py]. *)
Ltac solve_confined :=
  repeat match goal with
  | |- confined _ _ (bind (ret _) _) => apply confined_bind_ret
  | |- confined _ _ (bind _ _) => apply confined_bind; [|intros ?]
  | |- confined _ _ (try_except _ _) => apply confined_try_except; [|confined_handler]
  | |- confined _ _ (try_finally _ _) => apply confined_try_finally
  | |- confined _ _ (if _ then _ else _) => apply confined_if
  | |- confined _ _ (match ?x with _ => _ end) => destruct x
  | |- confined _ _ (for_each _ _ _) => apply confined_for_each; intros [[? ?] ?] ?
  | |- confined _ _ (ret _) => apply confined_ret
  | |- confined _ _ (raise _) => apply confined_raise; confined_side
  | |- confined _ _ (sys_exit _) => apply confined_raise; confined_side
  | |- confined _ _ (emit _) => apply confined_emit; confined_side
  | |- confined _ _ (print _) => apply confined_emit; confined_side
  | |- confined _ _ (print_str _) => apply confined_emit; confined_side
  | |- confined _ _ (time_sleep _) => apply confined_emit; confined_side
  | |- confined _ _ chdir_script_dir => apply confined_emit; confined_side
  | |- confined _ _ (os_path_exists _) => apply confined_os_path_exists; confined_side
  | |- confined _ _ get_platform_system => apply confined_get_platform_system
  | |- confined _ _ (subprocess_run _ _) =>
      apply confined_subprocess_run; confined_side
  end.

(** ** run-tests.py: the summary and the exit status *)


Lemma bind_ext {A B} (m : M A) (k1 k2 : A -> M B) ev tr :
  (forall a tr', k1 a ev tr' = k2 a ev tr') -> bind m k1 ev tr = bind m k2 ev tr.
Proof. intros Hk. unfold bind. destruct (m ev tr) as [[a|e] tr']; [apply Hk | done]. Qed.



(** Membership of an event in a trace that is written out. *)
Ltac in_trace := repeat first [by apply list_elem_of_here | apply list_elem_of_further].

Ltac not_in_trace :=
  let H := fresh "H" in
  intros H; repeat (apply elem_of_cons in H as [H|H]; [discriminate H|]);
  by apply elem_of_nil in H.



(** ** run-tests.py: one unit, the toolchain check, and what stops a run *)

Lemma run_test_project_trace ev tr name path desc :
  RunTests.run_test_project name path desc ev tr =
    match child ev (spawn_count tr) (RunTests.test_cmd path) with
    | Exited rc _ =>
        (Ret rc,
         tr ++ [EOut [Lit "🔍 Running "; FmtStr name; Lit " tests..."];
                EOut [Lit "   Description: "; FmtStr desc];
                EOut [Lit "   Path: "; FmtStr path];
                ESpawn (RunTests.test_cmd path);
                if rc =? 0 then unit_passed_line name else unit_failed_line name rc]
            ++ [EOut []])
    | Failed err =>
        (Raise (exn_of err),
         tr ++ [EOut [Lit "🔍 Running "; FmtStr name; Lit " tests..."];
                EOut [Lit "   Description: "; FmtStr desc];
                EOut [Lit "   Path: "; FmtStr path];
                ESpawn (RunTests.test_cmd path)]
            ++ [EOut []])
    end.
Proof.
  unfold RunTests.run_test_project. rewrite !bind_print.
  unfold try_finally, try_except, bind, subprocess_run, print, emit, ret.
  rewrite !spawn_count_out.
  destruct (child ev (spawn_count tr) (RunTests.test_cmd path)) as [rc out|err].
  - destruct (Z.eqb_spec rc 0) as [->|Hne]; simpl; by rewrite <- !app_assoc.
  - destruct err; simpl; by rewrite <- !app_assoc.
Qed.

(** X1: [run_test_project] spawns the test command of the unit once and
    returns the return code of that process as it is; it prints that the
    unit passed exactly when the code is 0 and that it failed exactly when
    it is not; when the spawn itself fails the exception goes to the
    caller; and on every one of these ways out the last thing printed is
    the blank line of the [finally]. *)
Theorem run_test_project_outcome ev tr name path desc :
  exists l,
    snd (RunTests.run_test_project name path desc ev tr) = tr ++ l ++ [EOut []]
    /\ spawns l = [RunTests.test_cmd path]
    /\ (forall rc out,
          child ev (spawn_count tr) (RunTests.test_cmd path) = Exited rc out ->
          fst (RunTests.run_test_project name path desc ev tr) = Ret rc
          /\ (unit_passed_line name ∈ l <-> rc = 0)
          /\ (unit_failed_line name rc ∈ l <-> rc <> 0))
    /\ (forall err,
          child ev (spawn_count tr) (RunTests.test_cmd path) = Failed err ->
          fst (RunTests.run_test_project name path desc ev tr) = Raise (exn_of err)).
Proof.
  rewrite run_test_project_trace.
  destruct (child ev (spawn_count tr) (RunTests.test_cmd path)) as [rc out|err].
  - unfold unit_passed_line, unit_failed_line.
    destruct (Z.eqb_spec rc 0) as [->|Hne];
      eexists; (split; [reflexivity|]); (split; [reflexivity|]);
      (split; [|intros err [=]]); intros rc' out' [= <- _];
      (split; [reflexivity|]); split; split;
      first [done | by intros _; in_trace | not_in_trace].
  - eexists. split; [reflexivity|]. split; [reflexivity|].
    split; [intros rc out [=] | by intros err' [= <-]].
Qed.

Lemma run_tests_check_dotnet_trace ev tr :
  RunTests.check_dotnet ev tr =
    match child ev (spawn_count tr) RunTests.version_cmd with
    | Exited rc out =>
        if rc =? 0
        then (Ret true,
              tr ++ [ESpawn RunTests.version_cmd;
                     EOut [Lit "📊 .NET SDK Version: "; FmtStr (strip out)]]
                 ++ (if startswith (strip out) "8." then []
                     else [version_warning (strip out);
                           EOut [Lit "   global.json should pin to .NET 8.0.406"]])
                 ++ [EOut []])
        else (Ret false,
              tr ++ [ESpawn RunTests.version_cmd;
                     EOut [Lit "❌ .NET SDK not found. Please install .NET 8.0 SDK"];
                     EOut [Lit "   Download from: https://dotnet.microsoft.com/download"]])
    | Failed ENOENT =>
        (Ret false,
         tr ++ [ESpawn RunTests.version_cmd;
                EOut [Lit "❌ .NET SDK not found. Please install .NET 8.0 SDK"];
                EOut [Lit "   Download from: https://dotnet.microsoft.com/download"]])
    | Failed err => (Raise (exn_of err), tr ++ [ESpawn RunTests.version_cmd])
    end.
Proof.
  unfold RunTests.check_dotnet, try_except, bind, subprocess_run.
  destruct (child ev (spawn_count tr) RunTests.version_cmd) as [rc out|err].
  - destruct (Z.eqb_spec rc 0) as [->|Hne]; simpl.
    + destruct (startswith (strip out) "8."); simpl;
        unfold print_str, print, emit, ret, bind; by rewrite <- !app_assoc.
    + unfold print_str, print, emit, ret, bind. by rewrite <- !app_assoc.
  - destruct err; simpl; unfold print_str, print, emit, ret, bind;
      by rewrite <- ?app_assoc.
Qed.


(** X3: when the toolchain is missing, or its version query fails, a run
    of run-tests.py with well-formed arguments leaves with status 1 having
    spawned the version query alone: no mode is run and no summary is
    printed, whatever the flags. *)
Theorem run_tests_halts_without_toolchain ev argv ns :
  Argparse.parse_args RunTests.parser argv = Argparse.Parsed ns ->
  unavailable ev 0 RunTests.version_cmd ->
  RunTests.main argv ev [] =
    (Raise (SystemExit 1),
     [EChdir;
      EOut [Lit "🧪 Wikipedia MCP Server - Test Runner"];
      EOut [Lit (str_repeat "=" 37)];
      ESpawn RunTests.version_cmd;
      EOut [Lit "❌ .NET SDK not found. Please install .NET 8.0 SDK"];
      EOut [Lit "   Download from: https://dotnet.microsoft.com/download"]]).
Proof.
  intros Hparse Hun.
  unfold RunTests.main, RunTests.parse_command_line, chdir_script_dir.
  rewrite Hparse, bind_emit, bind_ret_l.
  unfold RunTests.print_banner, print_str. rewrite bind_assoc, !bind_print.
  unfold bind at 1. rewrite run_tests_check_dotnet_trace.
  change (spawn_count _) with 0%nat.
  destruct Hun as [->|(rc & out & Hrc & ->)]; [reflexivity|].
  by destruct (Z.eqb_spec rc 0).
Qed.

Lemma run_tests_halts_without_toolchain_witness :
  RunTests.main ["--unit"] env_no_dotnet [] =
    (Raise (SystemExit 1),
     [EChdir;
      EOut [Lit "🧪 Wikipedia MCP Server - Test Runner"];
      EOut [Lit (str_repeat "=" 37)];
      ESpawn RunTests.version_cmd;
      EOut [Lit "❌ .NET SDK not found. Please install .NET 8.0 SDK"];
      EOut [Lit "   Download from: https://dotnet.microsoft.com/download"]]).
Proof.
  apply (run_tests_halts_without_toolchain env_no_dotnet ["--unit"]
           (<["unit" := true]> (Argparse.defaults RunTests.parser))).
  - vm_compute. reflexivity.
  - left. reflexivity.
Defined.

(** The loop of [run_all_tests] when the spawn of a unit fails: the
    units before it have run, the ones after it never do. *)
Lemma for_each_units_abort ev p rest err : forall ran codes tr total,
  units_exit_with ev (spawn_count tr) ran codes ->
  child ev (spawn_count tr + List.length ran) (unit_cmd p) = Failed err ->
  exists l,
    for_each (ran ++ p :: rest)
      (fun '(name, path, desc) total_failures =>
         bind (RunTests.run_test_project name path desc)
              (fun r => ret (total_failures + r)))
      total ev tr
    = (Raise (exn_of err), tr ++ l)
    /\ spawns l = map unit_cmd ran ++ [unit_cmd p].
Proof.
  induction ran as [|[[name path] desc] ran IH]; intros [|c codes] tr total H Hp;
    simpl in H; try done.
  - destruct p as [[name path] desc]. simpl in Hp. rewrite Nat.add_0_r in Hp.
    simpl for_each. unfold bind at 1. unfold bind at 1.
    rewrite run_test_project_trace. unfold unit_cmd in Hp. simpl in Hp. rewrite Hp.
    eexists. split; [reflexivity|]. reflexivity.
  - destruct H as [[out Hc] Hrest].
    destruct (run_test_project_exited ev tr name path desc c out Hc) as (l1 & Hrun & Hl1).
    assert (Hn : spawn_count (tr ++ l1) = S (spawn_count tr)).
    { rewrite spawn_count_app. unfold spawn_count at 2. rewrite Hl1. simpl. lia. }
    rewrite <- Hn in Hrest.
    destruct (IH codes (tr ++ l1) (total + c) Hrest) as (l2 & Hloop & Hl2).
    { rewrite Hn. simpl in Hp. by rewrite <- Nat.add_succ_comm in Hp. }
    exists (l1 ++ l2). split.
    + simpl for_each. erewrite bind_ret; [|erewrite bind_ret; [reflexivity|exact Hrun]].
      rewrite Hloop. by rewrite app_assoc.
    + rewrite spawns_app, Hl1, Hl2. done.
Qed.

(** X4: in "all" mode a unit whose spawn fails (the operator interrupts
    it, or the program has gone) ends the run at once: the exception goes
    up from [run_all_tests], the units before it have run and the units
    after it are never spawned. *)
Theorem run_all_tests_aborts_on_spawn_failure ev tr out ran p rest codes err :
  RunTests.test_projects = ran ++ p :: rest ->
  child ev (spawn_count tr) RunTests.build_cmd = Exited 0 out ->
  units_exit_with ev (S (spawn_count tr)) ran codes ->
  child ev (S (spawn_count tr) + List.length ran) (unit_cmd p) = Failed err ->
  exists tr',
    RunTests.run_all_tests ev tr = (Raise (exn_of err), tr')
    /\ spawns tr' = spawns tr ++ RunTests.build_cmd :: map unit_cmd ran ++ [unit_cmd p].
Proof.
  intros Hps Hb Hu Hp.
  unfold RunTests.run_all_tests, print_str. rewrite !bind_print.
  destruct (build_solution_ok ev ((tr ++ [EOut [Lit "🎯 Running ALL test projects..."]])
                                     ++ [EOut []]) out) as (l1 & Hbuild & Hl1).
  { by rewrite !spawn_count_out. }
  erewrite bind_ret by exact Hbuild. cbn [negb]. rewrite Hps.
  assert (Hn : spawn_count (((tr ++ [EOut [Lit "🎯 Running ALL test projects..."]])
                               ++ [EOut []]) ++ l1) = S (spawn_count tr)).
  { rewrite spawn_count_app, !spawn_count_out. unfold spawn_count at 2.
    rewrite Hl1. change (List.length [RunTests.build_cmd]) with 1%nat.
    by rewrite Nat.add_1_r. }
  destruct (for_each_units_abort ev p rest err ran codes
              (((tr ++ [EOut [Lit "🎯 Running ALL test projects..."]]) ++ [EOut []]) ++ l1) 0)
    as (l2 & Hloop & Hl2); [by rewrite Hn..|].
  eexists. split; [exact Hloop|].
  rewrite 2!spawns_app, !spawns_out, Hl1, Hl2. by rewrite <- app_assoc.
Qed.

Lemma run_all_tests_aborts_on_spawn_failure_witness :
  exists tr',
    RunTests.run_all_tests env_interrupted_at_service [] = (Raise (exn_of SIGINT), tr')
    /\ spawns tr' = spawns [] ++ RunTests.build_cmd
                      :: map unit_cmd [RunTests.unit_project]
                      ++ [unit_cmd RunTests.service_project].
Proof.
  apply (run_all_tests_aborts_on_spawn_failure env_interrupted_at_service [] ""
           [RunTests.unit_project] RunTests.service_project
           [RunTests.integration_project; RunTests.stdio_project] [0] SIGINT).
  - reflexivity.
  - reflexivity.
  - simpl. split; [by exists ""|done].
  - reflexivity.
Defined.

(** X5: when the build of "all" mode cannot be spawned, or the operator
    interrupts it, [build_solution] does not answer [False]: the
    exception goes up through [run_all_tests], the failure of the build is
    not printed, and no unit is run. *)
Theorem run_all_tests_build_spawn_failure ev tr err :
  child ev (spawn_count tr) RunTests.build_cmd = Failed err ->
  RunTests.run_all_tests ev tr =
    (Raise (exn_of err),
     tr ++ [EOut [Lit "🎯 Running ALL test projects..."];
            EOut [];
            EOut [Lit "🏗️  Building solution first..."];
            ESpawn RunTests.build_cmd]).
Proof.
  intros Hb.
  unfold RunTests.run_all_tests, RunTests.build_solution, print_str.
  rewrite !bind_print. rewrite bind_assoc, bind_print.
  unfold try_except, bind, subprocess_run. rewrite !spawn_count_out, Hb.
  destruct err; simpl; by rewrite <- !app_assoc.
Qed.

Lemma run_all_tests_build_spawn_failure_witness :
  RunTests.run_all_tests env_build_not_spawned [] =
    (Raise (exn_of ENOENT),
     [] ++ [EOut [Lit "🎯 Running ALL test projects..."];
            EOut [];
            EOut [Lit "🏗️  Building solution first..."];
            ESpawn RunTests.build_cmd]).
Proof.
  apply (run_all_tests_build_spawn_failure env_build_not_spawned [] ENOENT). reflexivity.
Defined.

(** ** run-tests.py: the modes of one command *)




Lemma run_mode_never_builds (m : mode) : m <> All -> only_spawns not_build (run_mode m).
Proof.
  intros Hm. destruct m as [|category| | |]; [| | | |done]; cbn [run_mode].
  - unfold RunTests.run_tests_with_coverage. solve_only_spawns.
  - unfold RunTests.run_specific_tests.
    destruct (RunTests.test_configs !! category) as [[[name path] desc]|].
    + unfold RunTests.run_test_project. solve_only_spawns.
    + solve_only_spawns.
  - unfold RunTests.run_fast_tests. solve_only_spawns.
  - unfold RunTests.run_watch_tests. solve_only_spawns.
Qed.

(** X7: only "all" mode builds.  In any other mode no command of a run
    is a build, whatever the environment does; a single scope is run with
    [--no-build] and so on what an earlier build has left. *)
Theorem only_all_mode_builds argv ns :
  Argparse.parse_args RunTests.parser argv = Argparse.Parsed ns ->
  selected_mode ns <> All ->
  only_spawns not_build (RunTests.main argv)
  /\ forall p, p ∈ RunTests.test_projects -> "--no-build" ∈ unit_cmd p.
Proof.
  intros Hparse Hsel. split.
  - apply (run_tests_main_only_spawns _ _ ns Hparse); [reflexivity|].
    rewrite dispatch_run_mode. by apply run_mode_never_builds.
  - intros [[name path] desc] _. unfold unit_cmd, RunTests.test_cmd. cbn [fst snd].
    in_trace.
Qed.

Lemma only_all_mode_builds_witness :
  only_spawns not_build (RunTests.main ["--unit"])
  /\ forall p, p ∈ RunTests.test_projects -> "--no-build" ∈ unit_cmd p.
Proof.
  apply (only_all_mode_builds ["--unit"]
           (<["unit" := true]> (Argparse.defaults RunTests.parser)));
    [vm_compute; reflexivity | vm_compute; discriminate].
Defined.

(** ** run-tests.py: what of the command line counts *)

Lemma parse_spellings (argv : list string) :
  Forall is_spelling argv ->
  Argparse.parse_args RunTests.parser argv
    = Argparse.Parsed (set_flags argv (Argparse.defaults RunTests.parser)).
Proof.
  intros Hargv. unfold Argparse.parse_args. rewrite (classify_spellings argv Hargv).
  rewrite <- (app_nil_r (map _ argv)). by rewrite consume_spellings.
Qed.

Lemma getattr_parsed (argv : list string) (dest : string) :
  Argparse.getattr (set_flags argv (Argparse.defaults RunTests.parser)) dest = true
  <-> spelled argv dest.
Proof.
  rewrite getattr_set_flags, getattr_defaults. split; [by intros [|] | by right].
Qed.

Lemma dispatch_ext (args args' : gmap string bool) :
  Forall (fun p => Argparse.getattr args' (fst p) = Argparse.getattr args (fst p)) priority ->
  RunTests.dispatch args' = RunTests.dispatch args.
Proof.
  unfold priority. rewrite !Forall_cons. cbn [fst].
  intros (H1 & H2 & H3 & H4 & H5 & H6 & H7 & _).
  unfold RunTests.dispatch. by rewrite H1, H2, H3, H4, H5, H6, H7.
Qed.

Lemma spelled_spelledb (argv : list string) (dest : string) :
  spelled argv dest <-> spelledb argv dest = true.
Proof.
  unfold spelled, spelledb. rewrite existsb_exists. split.
  - intros (s & Hin & Hs). exists s. split; [by apply list_elem_of_In|].
    by apply bool_decide_eq_true.
  - intros (s & Hin & Hs). exists s. split; [by apply list_elem_of_In|].
    by apply bool_decide_eq_true in Hs.
Qed.

(** X9: of a command line of mode flags only the set of flags counts, and
    of that set only the seven flags the choice of the mode reads.  Two
    command lines that spell the same ones of these flags give the same
    run: the order of the flags, their repetition, the choice between the
    long and the short spelling and the presence of [--all] change
    nothing. *)
Theorem flags_determine_run (argv argv' : list string) :
  Forall is_spelling argv ->
  Forall is_spelling argv' ->
  Forall (fun p => spelled argv (fst p) <-> spelled argv' (fst p)) priority ->
  forall ev tr, RunTests.main argv ev tr = RunTests.main argv' ev tr.
Proof.
  intros Hargv Hargv' Hsame ev tr.
  assert (Hd : RunTests.dispatch (set_flags argv (Argparse.defaults RunTests.parser))
             = RunTests.dispatch (set_flags argv' (Argparse.defaults RunTests.parser))).
  { apply dispatch_ext. eapply Forall_impl; [exact Hsame|].
    intros [flag m] Hiff. cbn [fst] in *.
    rewrite <- !getattr_parsed in Hiff.
    destruct (Argparse.getattr (set_flags argv _) flag),
             (Argparse.getattr (set_flags argv' _) flag);
      destruct Hiff as [H1 H2];
      first [done | by specialize (H1 eq_refl) | by specialize (H2 eq_refl)]. }
  unfold RunTests.main, RunTests.parse_command_line.
  rewrite (parse_spellings argv Hargv), (parse_spellings argv' Hargv').
  apply bind_ext. intros [] tr1. rewrite !bind_ret_l.
  apply bind_ext. intros [] tr2. apply bind_ext. intros ok tr3.
  by rewrite Hd.
Qed.

Lemma flags_determine_run_witness :
  RunTests.main ["--fast"; "-u"] env_unit_passes []
  = RunTests.main ["--unit"; "--all"; "-f"; "--unit"] env_unit_passes [].
Proof.
  apply (fun H1 H2 H3 =>
           flags_determine_run ["--fast"; "-u"] ["--unit"; "--all"; "-f"; "--unit"]
             H1 H2 H3 env_unit_passes []).
  - repeat constructor; eexists; reflexivity.
  - repeat constructor; eexists; reflexivity.
  - unfold priority.
    repeat (apply List.Forall_cons; [cbn [fst]; rewrite !spelled_spelledb; reflexivity|]).
    apply List.Forall_nil.
Defined.

(** X10: from the command line to the mode.  A command line of mode flags
    is parsed, and the mode that runs is the one of the first flag, in the
    order coverage, unit, service, integration, stdio, fast, watch, that
    the command line spells; it is "all" when it spells none of them. *)
Theorem command_line_selects_mode (argv : list string) :
  Forall is_spelling argv ->
  exists ns,
    Argparse.parse_args RunTests.parser argv = Argparse.Parsed ns
    /\ (forall flag m before after,
          priority = before ++ (flag, m) :: after ->
          Forall (fun p => ~ spelled argv (fst p)) before ->
          spelled argv flag ->
          RunTests.dispatch ns = run_mode m)
    /\ (Forall (fun p => ~ spelled argv (fst p)) priority ->
        RunTests.dispatch ns = RunTests.run_all_tests).
Proof.
  intros Hargv. eexists. split; [by apply parse_spellings|].
  assert (Hfalse : forall flag, ~ spelled argv flag ->
            Argparse.getattr (set_flags argv (Argparse.defaults RunTests.parser)) flag
            = false).
  { intros flag Hn. rewrite <- getattr_parsed in Hn. by destruct (Argparse.getattr _ flag). }
  split.
  - intros flag m before after Hp Hbefore Hflag.
    rewrite dispatch_run_mode. unfold selected_mode. rewrite Hp. clear Hp.
    induction Hbefore as [|[f' m'] before Hf' _ IH]; cbn [app List.find fst].
    + apply getattr_parsed in Hflag. by rewrite Hflag.
    + by rewrite (Hfalse f' Hf').
  - unfold priority. rewrite !Forall_cons. cbn [fst].
    intros (H1 & H2 & H3 & H4 & H5 & H6 & H7 & _).
    unfold RunTests.dispatch.
    by rewrite !Hfalse.
Qed.

Lemma command_line_selects_mode_witness :
  exists ns,
    Argparse.parse_args RunTests.parser ["--watch"; "-s"; "--all"] = Argparse.Parsed ns
    /\ (forall flag m before after,
          priority = before ++ (flag, m) :: after ->
          Forall (fun p => ~ spelled ["--watch"; "-s"; "--all"] (fst p)) before ->
          spelled ["--watch"; "-s"; "--all"] flag ->
          RunTests.dispatch ns = run_mode m)
    /\ (Forall (fun p => ~ spelled ["--watch"; "-s"; "--all"] (fst p)) priority ->
        RunTests.dispatch ns = RunTests.run_all_tests).
Proof.
  apply (command_line_selects_mode ["--watch"; "-s"; "--all"]).
  repeat constructor; eexists; reflexivity.
Defined.

Lemma classify_plain (args : list string) :
  Forall (fun s => String.eqb s "--" = false
                   /\ exists t, Argparse.parse_optional RunTests.parser s = inr t) args ->
  Argparse.classify_args RunTests.parser args
  = inr (map (fun s => (s, match Argparse.parse_optional RunTests.parser s with
                           | inr t => t
                           | inl _ => None
                           end)) args).
Proof.
  induction 1 as [|s args (Hsep & t & Ht) _ IH]; [done|].
  simpl. by rewrite Hsep, Ht, IH.
Qed.

Lemma flag_or_unrecognized_plain (s : string) :
  flag_or_unrecognized s ->
  String.eqb s "--" = false
  /\ exists t, Argparse.parse_optional RunTests.parser s = inr t.
Proof.
  intros [[dest Hs]|Hu].
  - destruct (spelling_parse s dest Hs) as [Hp Hsep]. eauto.
  - split; [by apply unrecognized_not_separator|].
    unfold unrecognized in Hu.
    destruct (Argparse.parse_optional RunTests.parser s) as [|t]; [done | eauto].
Qed.

Lemma consume_plain (pre : list string) :
  Forall flag_or_unrecognized pre ->
  forall toks ns extras, exists ns' extras',
    Argparse.consume RunTests.parser
      (map (fun s => (s, match Argparse.parse_optional RunTests.parser s with
                         | inr t => t
                         | inl _ => None
                         end)) pre ++ toks) ns extras
    = Argparse.consume RunTests.parser toks ns' extras'.
Proof.
  induction 1 as [|s pre Hs _ IH]; intros toks ns extras; [by eexists _, _|].
  simpl. destruct Hs as [[dest Hs]|Hu].
  - destruct (spelling_parse s dest Hs) as [-> _]. simpl. apply IH.
  - unfold unrecognized in Hu.
    destruct (Argparse.parse_optional RunTests.parser s) as [|[[[[a|] os] ea]|]];
      try done; apply IH.
Qed.

(** X11: a help flag wins over everything around it.  Among mode flags
    and unrecognized arguments, before it or after it, [-h] or [--help]
    makes the run leave with status 0 without running anything: an
    unknown flag next to a help flag is no usage error. *)
Theorem help_wins (pre rest : list string) (h : string) ev :
  Forall flag_or_unrecognized pre ->
  h ∈ help_flags ->
  Forall flag_or_unrecognized rest ->
  Argparse.parse_args RunTests.parser (pre ++ h :: rest) = Argparse.HelpExit
  /\ RunTests.main (pre ++ h :: rest) ev [] = (Raise (SystemExit 0), [EChdir; EHelp]).
Proof.
  intros Hpre Hh Hrest.
  assert (Hparse : Argparse.parse_args RunTests.parser (pre ++ h :: rest)
                   = Argparse.HelpExit).
  { unfold Argparse.parse_args. rewrite classify_plain.
    - rewrite map_app. cbn [map].
      destruct (consume_plain pre Hpre
                  ((h, match Argparse.parse_optional RunTests.parser h with
                       | inr t => t
                       | inl _ => None
                       end)
                   :: map (fun s => (s, match Argparse.parse_optional RunTests.parser s with
                                        | inr t => t
                                        | inl _ => None
                                        end)) rest)
                  (Argparse.defaults RunTests.parser) []) as (ns' & extras' & ->).
      unfold help_flags in Hh.
      apply elem_of_cons in Hh as [->|Hh]; [reflexivity|].
      apply elem_of_cons in Hh as [->|Hh]; [reflexivity|].
      by apply elem_of_nil in Hh.
    - apply Forall_app. split; [|apply Forall_cons; split].
      + eapply Forall_impl; [exact Hpre | apply flag_or_unrecognized_plain].
      + unfold help_flags in Hh.
        apply elem_of_cons in Hh as [->|Hh]; [split; [done | by eexists]|].
        apply elem_of_cons in Hh as [->|Hh]; [split; [done | by eexists]|].
        by apply elem_of_nil in Hh.
      + eapply Forall_impl; [exact Hrest | apply flag_or_unrecognized_plain]. }
  split; [exact Hparse|].
  unfold RunTests.main, RunTests.parse_command_line, chdir_script_dir.
  rewrite Hparse. reflexivity.
Qed.

Lemma help_wins_witness :
  Argparse.parse_args RunTests.parser (["--unit"; "--nonsense"] ++ "-h" :: ["-x"])
    = Argparse.HelpExit
  /\ RunTests.main (["--unit"; "--nonsense"] ++ "-h" :: ["-x"]) env_no_dotnet []
     = (Raise (SystemExit 0), [EChdir; EHelp]).
Proof.
  apply (help_wins ["--unit"; "--nonsense"] ["-x"] "-h" env_no_dotnet).
  - apply List.Forall_cons; [left; eexists; reflexivity|].
    apply List.Forall_cons; [right; reflexivity|]. apply List.Forall_nil.
  - unfold help_flags. apply list_elem_of_here.
  - apply List.Forall_cons; [right; reflexivity|]. apply List.Forall_nil.
Defined.

(** ** start-server.py: the ways out *)

Lemma start_server_main_split ev tr :
  StartServer.main ev tr = bind up_to_run (fun _ => StartServer.start_server) ev tr.
Proof.
  unfold StartServer.main, up_to_run.
  rewrite bind_assoc. apply bind_ext. intros [] tr1.
  rewrite bind_assoc. apply bind_ext. intros [] tr2.
  rewrite bind_assoc. apply bind_ext. intros ok tr3.
  destruct ok; [|done]. cbn [negb].
  rewrite bind_assoc. apply bind_ext. intros found tr4.
  destruct found; [|done]. cbn [negb].
  rewrite bind_assoc. apply bind_ext. intros [] tr5.
  rewrite bind_assoc. apply bind_ext. intros built tr6.
  by destruct built.
Qed.

Lemma up_to_run_confined : confined not_run exits_with_1 up_to_run.
Proof.
  unfold up_to_run, StartServer.print_banner, StartServer.check_dotnet,
    StartServer.check_project, StartServer.kill_existing_processes,
    StartServer.build_project, StartServer.print_server_info,
    not_run, exits_with_1, StartServer.version_cmd, StartServer.taskkill_cmd,
    StartServer.pkill_cmd, StartServer.build_cmd, StartServer.run_cmd.
  solve_confined.
Qed.

Lemma start_server_trace ev tr :
  exists r l,
    StartServer.start_server ev tr = (r, tr ++ ESpawn StartServer.run_cmd :: l)
    /\ (r = Ret tt \/ exists err, r = Raise (exn_of err)).
Proof.
  unfold StartServer.start_server, try_except, bind, subprocess_run.
  destruct (child ev (spawn_count tr) StartServer.run_cmd) as [rc out|err].
  - destruct (Z.eqb_spec rc 0) as [->|Hne]; simpl;
      unfold print_str, print, emit, ret; rewrite <- ?app_assoc; simpl;
      eexists _, _; (split; [reflexivity|]); by left.
  - destruct err; simpl; unfold print_str, print, emit, ret; rewrite <- ?app_assoc; simpl;
      eexists _, _; (split; [reflexivity|]);
      first [by left | right; by exists ENOENT | right; by exists EOTHER].
Qed.

Lemma spawns_not_run (l : trace) :
  Forall not_run l -> StartServer.run_cmd ∉ spawns l.
Proof.
  induction 1 as [|e l He _ IH]; [by intros ?%elem_of_nil|].
  unfold spawns. destruct e; cbn [omap list_omap]; try exact IH.
  intros [<-|Hin]%elem_of_cons; [by apply He | by apply IH].
Qed.

(** X13: the exit status of start-server.py is 0 or 1 and nothing else,
    unless an exception nobody catches ends it.  It is 1 only when the
    flow has halted before the server was spawned, and 0 only after the
    server was spawned: whatever return code the server leaves with never
    becomes the status of the script. *)
Theorem start_server_exit_statuses ev :
  process_exit_code (fst (StartServer.main ev [])) ∈ [Some 0; Some 1; None]
  /\ (process_exit_code (fst (StartServer.main ev [])) = Some 0 ->
      StartServer.run_cmd ∈ spawns (snd (StartServer.main ev [])))
  /\ (process_exit_code (fst (StartServer.main ev [])) = Some 1 ->
      StartServer.run_cmd ∉ spawns (snd (StartServer.main ev []))).
Proof.
  rewrite start_server_main_split.
  destruct (confined_bind_cases not_run exits_with_1 (B:=unit) up_to_run
              (fun _ => StartServer.start_server) ev [] up_to_run_confined)
    as [(e & l & -> & Hl & He)|([] & l & -> & Hl)]; cbn [fst snd app].
  - pose proof (spawns_not_run l Hl) as Hnot.
    destruct e as [cmd rc| | | |c]; cbn [process_exit_code];
      try (split; [in_trace | split; [done | done]]).
    rewrite (He c eq_refl). split; [in_trace|]. split; [done | by intros _].
  - destruct (start_server_trace ev l) as (r & l' & -> & Hr). cbn [fst snd].
    assert (Hin : StartServer.run_cmd ∈ spawns (l ++ ESpawn StartServer.run_cmd :: l')).
    { rewrite spawns_app. apply elem_of_app. right. apply list_elem_of_here. }
    destruct Hr as [->|[err ->]]; cbn [process_exit_code].
    + split; [in_trace|]. split; [done | discriminate].
    + destruct err; cbn [exn_of]; (split; [in_trace|]); split; discriminate.
Qed.

Lemma start_server_check_dotnet_trace ev tr :
  unavailable ev (spawn_count tr) StartServer.version_cmd ->
  StartServer.check_dotnet ev tr =
    (Ret false,
     tr ++ [ESpawn StartServer.version_cmd;
            EOut [Lit "❌ .NET SDK not found. Please install .NET 8.0 SDK"];
            EOut [Lit "   Download from: https://dotnet.microsoft.com/download"]]).
Proof.
  intros Hun. unfold StartServer.check_dotnet, try_except, bind, subprocess_run.
  destruct Hun as [->|(rc & out & Hrc & ->)].
  - simpl. unfold print_str, print, emit, ret, bind. by rewrite <- !app_assoc.
  - destruct (Z.eqb_spec rc 0) as [|_]; [done|]. simpl.
    unfold print_str, print, emit, ret, bind. by rewrite <- !app_assoc.
Qed.

(** X14: when the toolchain is missing, or its version query fails,
    start-server.py leaves with status 1 having spawned the version query
    alone: no running process is killed, nothing is built. *)
Theorem start_server_halts_without_toolchain ev :
  unavailable ev 0 StartServer.version_cmd ->
  StartServer.main ev [] =
    (Raise (SystemExit 1),
     [EChdir;
      EOut [Lit "🚀 Starting Wikipedia MCP Server for Local Testing"];
      EOut [Lit (str_repeat "=" 50)];
      ESpawn StartServer.version_cmd;
      EOut [Lit "❌ .NET SDK not found. Please install .NET 8.0 SDK"];
      EOut [Lit "   Download from: https://dotnet.microsoft.com/download"]])
  /\ steps (snd (StartServer.main ev [])) = [CheckPrerequisites].
Proof.
  intros Hun. rewrite main_start.
  erewrite bind_ret by (by apply start_server_check_dotnet_trace).
  cbn [negb]. split; [reflexivity|]. by vm_compute.
Qed.

Lemma start_server_halts_without_toolchain_witness :
  StartServer.main env_no_dotnet [] =
    (Raise (SystemExit 1),
     [EChdir;
      EOut [Lit "🚀 Starting Wikipedia MCP Server for Local Testing"];
      EOut [Lit (str_repeat "=" 50)];
      ESpawn StartServer.version_cmd;
      EOut [Lit "❌ .NET SDK not found. Please install .NET 8.0 SDK"];
      EOut [Lit "   Download from: https://dotnet.microsoft.com/download"]])
  /\ steps (snd (StartServer.main env_no_dotnet [])) = [CheckPrerequisites].
Proof.
  apply (start_server_halts_without_toolchain env_no_dotnet). left. reflexivity.
Defined.

Lemma build_project_failed ev tr rc out :
  child ev (spawn_count tr) StartServer.build_cmd = Exited rc out -> rc <> 0 ->
  StartServer.build_project ev tr =
    (Ret false,
     tr ++ [EOut [Lit "🔨 Building the project..."];
            ESpawn StartServer.build_cmd;
            EOut [Lit "❌ Build failed. Please check the build errors above."]]).
Proof.
  intros Hc Hrc. unfold StartServer.build_project, print_str. rewrite bind_print.
  unfold try_except, bind, subprocess_run. rewrite spawn_count_out, Hc.
  destruct (Z.eqb_spec rc 0) as [|_]; [done|]. simpl.
  unfold print, emit, ret. by rewrite <- !app_assoc.
Qed.

(** X15: when the build of start-server.py leaves with a non-zero return
    code the flow halts with status 1 after the Build step: the endpoints
    are not printed and the server is never spawned. *)
Theorem start_server_halts_on_build_failure ev out rc o2 :
  child ev 0 StartServer.version_cmd = Exited 0 out ->
  path_exists ev StartServer.project_path = true ->
  child ev 2 StartServer.build_cmd = Exited rc o2 ->
  rc <> 0 ->
  exists tr',
    StartServer.main ev [] = (Raise (SystemExit 1), tr')
    /\ steps tr' = [CheckPrerequisites; CheckProjectExists; KillStaleInstances; Build]
    /\ spawns tr' = [StartServer.version_cmd; kill_cmd_on (platform_system ev);
                     StartServer.build_cmd]
    /\ last tr' = Some (EOut [Lit "❌ Build failed. Please check the build errors above."]).
Proof.
  intros Hv Hp Hb Hrc.
  destruct (main_reaches_build ev out Hv Hp) as (tr0 & Hs0 & Ht0 & ->).
  erewrite bind_ret.
  2:{ apply (build_project_failed ev tr0 rc o2); [|done].
      unfold spawn_count. by rewrite Hs0. }
  cbn [negb]. eexists. split; [reflexivity|]. split; [|split].
  - rewrite steps_app, Ht0. reflexivity.
  - rewrite spawns_app, Hs0. reflexivity.
  - rewrite last_app. reflexivity.
Qed.

Lemma start_server_halts_on_build_failure_witness :
  exists tr',
    StartServer.main env_server_build_fails [] = (Raise (SystemExit 1), tr')
    /\ steps tr' = [CheckPrerequisites; CheckProjectExists; KillStaleInstances; Build]
    /\ spawns tr' = [StartServer.version_cmd;
                     kill_cmd_on (platform_system env_server_build_fails);
                     StartServer.build_cmd]
    /\ last tr' = Some (EOut [Lit "❌ Build failed. Please check the build errors above."]).
Proof.
  apply (start_server_halts_on_build_failure env_server_build_fails "8.0.406" 1 "");
    [reflexivity | reflexivity | reflexivity | lia].
Defined.

(** ** run-tests.py: abbreviated flags *)

Lemma prefix_in_prefixes (p : string) : forall s,
  String.prefix p s = true -> p ∈ prefixes s.
Proof.
  induction p as [|c p IH]; intros [|c' s] Hp; simpl in *; try done.
  - apply list_elem_of_here.
  - apply list_elem_of_here.
  - destruct (Ascii.ascii_dec c c') as [<-|Hne]; [|done].
    apply list_elem_of_further, list_elem_of_In, in_map, list_elem_of_In. by apply IH.
Qed.

(** An abbreviation of a long flag, on its own on the command line. *)
Ltac abbreviation_case :=
  let Hlen := fresh "Hlen" in let Hs := fresh "Hs" in
  intros Hlen Hs;
  first [ exfalso; vm_compute in Hlen; lia
        | exfalso; by apply Hs
        | vm_compute; reflexivity ].

(** X12: a long mode flag may be abbreviated.  Every prefix of a long
    flag that goes beyond the two dashes is taken for the flag, but for
    [--s], which [--service] and [--stdio] share and which is a usage
    error. *)
Theorem abbreviated_flags (long dest s : string) :
  (long, dest) ∈ long_spellings ->
  String.prefix s long = true ->
  (3 <= String.length s)%nat ->
  s <> "--s" ->
  Argparse.parse_args RunTests.parser [s]
  = Argparse.Parsed (<[dest := true]> (Argparse.defaults RunTests.parser)).
Proof.
  intros Hlong Hp. apply prefix_in_prefixes in Hp.
  assert (Hall : Forall (fun s =>
            (3 <= String.length s)%nat -> s <> "--s" ->
            Argparse.parse_args RunTests.parser [s]
            = Argparse.Parsed (<[dest := true]> (Argparse.defaults RunTests.parser)))
            (prefixes long)).
  { clear s Hp. vm_compute in Hlong.
    repeat (apply elem_of_cons in Hlong as [[= -> ->]|Hlong];
            [cbn [prefixes map];
             repeat (apply List.Forall_cons; [abbreviation_case|]); apply List.Forall_nil|]).
    by apply elem_of_nil in Hlong. }
  rewrite Forall_forall in Hall. by apply Hall.
Qed.

Lemma abbreviated_flags_witness :
  Argparse.parse_args RunTests.parser ["--integ"]
  = Argparse.Parsed (<["integration" := true]> (Argparse.defaults RunTests.parser)).
Proof.
  apply (abbreviated_flags "--integration" "integration" "--integ").
  - unfold long_spellings, spellings. cbn. in_trace.
  - reflexivity.
  - vm_compute. lia.
  - discriminate.
Defined.
